(** * dash-news-sentiment: the aggregation pipeline of [app.py]

    A shallow embedding of the module-level script of [app.py]: the loader
    [load_sentiment_data], the trailing-window filter, the date-range
    caption, the five aggregates, and the headline table.

    Conventions.
    - A data frame is the list of its rows, in row order.  Columns of the
      record described by the data model (title, sentiment, text, source,
      url, publishedAt) hold values, not nulls.
    - The [topics] cell is dynamically typed in the source (line 29 tests
      [isinstance(..., str)]), so it is a tagged union here.
    - A calendar date is a day number (days since 1970-01-01), a pandas
      timestamp its nanosecond count since the epoch.
    - A Python exception is a value of [exn]; a computation that may raise
      returns [result]. *)

From Stdlib Require Import ZArith String Ascii Bool Lia DecimalString.
From Stdlib Require Import List Permutation Sorted.
Import ListNotations.

Local Open Scope string_scope.
Local Open Scope list_scope.
Local Open Scope Z_scope.

(** ** Python exceptions and fallible computations *)

Inductive exn : Type :=
| IndexError        (* positional indexer out of bounds *)
| TypeError         (* wrong kind of argument *)
| AttributeError    (* attribute missing on the object *)
| ValueError        (* a value the callee cannot use *)
| OutOfBoundsDatetime (* a time outside the nanosecond range *)
| SyntaxError       (* text that is not an expression *)
| OtherError (cls : string).  (* any other exception class *)

Inductive result (A : Type) : Type :=
| Ok (a : A)
| Raise (e : exn).

Arguments Ok {A} a.
Arguments Raise {A} e.

Definition bind {A B : Type} (c : result A) (k : A -> result B) : result B :=
  match c with
  | Ok a => k a
  | Raise e => Raise e
  end.

Notation "x <- c ;; k" := (bind c (fun x => k))
  (at level 61, c at next level, right associativity).

Fixpoint mapM {A B : Type} (f : A -> result B) (l : list A) : result (list B) :=
  match l with
  | [] => Ok []
  | x :: l' => y <- f x ;; ys <- mapM f l' ;; Ok (y :: ys)
  end.

(** ** Labels: the values pandas groups and counts by *)

Class Label (K : Type) : Type := {
  label_eqb : K -> K -> bool;
  label_leb : K -> K -> bool
}.

#[export] Instance string_Label : Label string :=
  {| label_eqb := String.eqb; label_leb := String.leb |}.

#[export] Instance Z_Label : Label Z :=
  {| label_eqb := Z.eqb; label_leb := Z.leb |}.

(** Tuples are equal componentwise and compare lexicographically, as
    Python tuples do. *)
#[export] Instance pair_Label {A B : Type} `{Label A} `{Label B} : Label (A * B) :=
  {| label_eqb := fun p q =>
       label_eqb (fst p) (fst q) && label_eqb (snd p) (snd q);
     label_leb := fun p q =>
       if label_eqb (fst p) (fst q)
       then label_leb (snd p) (snd q)
       else label_leb (fst p) (fst q) |}.

(** The equality test of a label type decides equality. *)
Class LabelEq (K : Type) `{Label K} : Prop :=
  label_eqb_eq : forall a b : K, label_eqb a b = true <-> a = b.

(** ** The pandas operations the script uses *)

Module Pandas.

Section Sort.
Context {A : Type} (leb : A -> A -> bool).

Fixpoint insert_sorted (x : A) (l : list A) : list A :=
  match l with
  | [] => [x]
  | y :: l' => if leb x y then x :: l else y :: insert_sorted x l'
  end.

(** [sort_values]: the rows reordered so that [leb] holds along the
    result.  The order among rows that compare equal is not fixed by
    pandas' default sort; this model keeps their arrival order. *)
Fixpoint sort_by (l : list A) : list A :=
  match l with
  | [] => []
  | x :: l' => insert_sorted x (sort_by l')
  end.
End Sort.

(** The total of the count column. *)
Definition total {K : Type} (t : list (K * nat)) : nat :=
  fold_right (fun kn acc => (snd kn + acc)%nat) 0%nat t.

Section Counting.
Context {K : Type} `{Label K}.

(** One more occurrence of [k] in a table of counts that keeps the
    labels in order of first appearance. *)
Fixpoint bump (k : K) (acc : list (K * nat)) : list (K * nat) :=
  match acc with
  | [] => [(k, 1%nat)]
  | (k', n) :: acc' =>
      if label_eqb k k' then (k', S n) :: acc' else (k', n) :: bump k acc'
  end.

Definition tally (keys : list K) : list (K * nat) :=
  fold_left (fun acc k => bump k acc) keys [].

(** Missing values ([NaN]) are left out of every count. *)
Fixpoint dropna (col : list (option K)) : list K :=
  match col with
  | [] => []
  | Some k :: col' => k :: dropna col'
  | None :: col' => dropna col'
  end.

(** [Series.value_counts().reset_index()]: one row per distinct
    non-missing value, most frequent first. *)
Definition value_counts (col : list (option K)) : list (K * nat) :=
  sort_by (fun a b => Nat.leb (snd b) (snd a)) (tally (dropna col)).

(** [groupby(keys).size().reset_index(name="count")]: one row per
    observed key, in increasing key order. *)
Definition groupby_size (keys : list K) : list (K * nat) :=
  sort_by (fun a b => label_leb (fst a) (fst b)) (tally keys).

(** The rows of a table of counts whose label satisfies [p]. *)
Definition rows_where (p : K -> bool) (t : list (K * nat)) : list (K * nat) :=
  filter (fun kn => p (fst kn)) t.

(** The count the table holds for the label [k], 0 when it has no row. *)
Definition count_of (k : K) (t : list (K * nat)) : nat :=
  total (rows_where (label_eqb k) t).
End Counting.

(** What [Series.min()] / [Series.max()] return: the extreme value, or
    [NaN] (a float) for a series without values. *)
Inductive scalar : Type :=
| SDate (d : Z)
| SNaN.

Definition series_min (col : list Z) : scalar :=
  match col with
  | [] => SNaN
  | d :: col' => SDate (fold_left Z.min col' d)
  end.

Definition series_max (col : list Z) : scalar :=
  match col with
  | [] => SNaN
  | d :: col' => SDate (fold_left Z.max col' d)
  end.

End Pandas.


(** ** Calendar dates and [strftime("%B %d, %Y")] *)

Module Calendar.

(** The proleptic Gregorian date (year, month, day) of a day number. *)
Definition civil_from_days (days : Z) : Z * Z * Z :=
  let z := days + 719468 in
  let era := z / 146097 in
  let doe := z - era * 146097 in
  let yoe := (doe - doe / 1460 + doe / 36524 - doe / 146096) / 365 in
  let doy := doe - (365 * yoe + yoe / 4 - yoe / 100) in
  let mp := (5 * doy + 2) / 153 in
  let d := doy - (153 * mp + 2) / 5 + 1 in
  let m := if mp <? 10 then mp + 3 else mp - 9 in
  let y := yoe + era * 400 + (if m <=? 2 then 1 else 0) in
  (y, m, d).

Definition month_name (m : Z) : string :=
  match m with
  | 1 => "January" | 2 => "February" | 3 => "March" | 4 => "April"
  | 5 => "May" | 6 => "June" | 7 => "July" | 8 => "August"
  | 9 => "September" | 10 => "October" | 11 => "November"
  | _ => "December"
  end.

Definition decimal (n : Z) : string :=
  NilZero.string_of_uint (N.to_uint (Z.to_N n)).

(** [%d]: the day of the month on two digits. *)
Definition two_digits (n : Z) : string :=
  if n <? 10 then ("0" ++ decimal n)%string else decimal n.

(** [date.strftime("%B %d, %Y")]. *)
Definition format_date (days : Z) : string :=
  let '(y, m, d) := civil_from_days days in
  (month_name m ++ " " ++ two_digits d ++ ", " ++ decimal y)%string.

End Calendar.

(** ** The records of [app.py] *)

(** A [topics] value: the serialized text as stored, or a list of labels. *)
Inductive cell : Type :=
| CStr (s : string)
| CList (l : list string).

(** A row as the query returns it; [q_publishedAt] is a BigQuery
    timestamp, in microseconds since the epoch. *)
Record QueryRow : Type := {
  q_publishedAt : Z;
  q_title : string;
  q_sentiment : string;
  q_topics : cell;
  q_text : string;
  q_source : string;
  q_url : string
}.

(** A row of [df] once the loader has added the derived columns. *)
Record Row : Type := {
  publishedAt : Z;
  title : string;
  sentiment : string;
  topics : cell;
  text : string;
  source : string;
  url : string;
  date : Z;
  hour : Z
}.

Definition DataFrame : Type := list Row.

(** ** Lines 17-31: the loader *)

(** [ORDER BY publishedAt DESC LIMIT 200] over the stored table. *)
Definition run_query (table : list QueryRow) : list QueryRow :=
  firstn 200 (Pandas.sort_by (fun a b => q_publishedAt b <=? q_publishedAt a) table).

(** The range of a pandas timestamp: a signed 64-bit count of
    nanoseconds, whose least value stands for "not a time". *)
Definition ns_min : Z := - 9223372036854775807.
Definition ns_max : Z := 9223372036854775807.

(** [pd.to_datetime]: the timestamp in pandas' nanosecond resolution; a
    time outside its range raises. *)
Definition to_datetime (micros : Z) : result Z :=
  let ns := micros * 1000 in
  if (ns_min <=? ns) && (ns <=? ns_max) then Ok ns else Raise OutOfBoundsDatetime.

(** [.dt.date] and [.dt.hour] of a timestamp. *)
Definition dt_date (ts : Z) : Z := ts / 86400000000000.
Definition dt_hour (ts : Z) : Z := (ts / 3600000000000) mod 24.

(** Lines 27-28 on one row, [ts] being its parsed timestamp. *)
Definition with_time_fields (q : QueryRow) (ts : Z) : Row :=
  {| publishedAt := ts;
     title := q_title q;
     sentiment := q_sentiment q;
     topics := q_topics q;
     text := q_text q;
     source := q_source q;
     url := q_url q;
     date := dt_date ts;
     hour := dt_hour ts |}.

(** Lines 26-28 on one row. *)
Definition derive (q : QueryRow) : result Row :=
  ts <- to_datetime (q_publishedAt q) ;; Ok (with_time_fields q ts).

Definition set_topics (r : Row) (c : cell) : Row :=
  {| publishedAt := publishedAt r;
     title := title r;
     sentiment := sentiment r;
     topics := c;
     text := text r;
     source := source r;
     url := url r;
     date := date r;
     hour := hour r |}.

(** [Series.iloc[0]]. *)
Definition iloc0 {A : Type} (col : list A) : result A :=
  match col with
  | [] => Raise IndexError
  | x :: _ => Ok x
  end.

Section Loader.

(** Python's [eval] on the stored text: the value it denotes, or the
    exception that evaluating it raises, whichever that is. *)
Variable eval : string -> result cell.

(** [eval] as [Series.apply] calls it on a cell: only text is accepted. *)
Definition apply_eval (c : cell) : result cell :=
  match c with
  | CStr s => eval s
  | CList _ => Raise TypeError
  end.

(** Line 30 on one row: its [topics] value replaced by what [eval]
    returns for it. *)
Definition decode_row (r : Row) : result Row :=
  c <- apply_eval (topics r) ;; Ok (set_topics r c).

Definition load_sentiment_data (table : list QueryRow) : result DataFrame :=
  df <- mapM derive (run_query table) ;;
  first <- iloc0 (map topics df) ;;
  match first with
  | CStr _ => mapM decode_row df
  | CList _ => Ok df
  end.

End Loader.

(** ** Lines 36-40: the filter and the caption *)

Definition last_7_days (today : Z) : Z := today - 7.

Definition filter_stage (today : Z) (df : DataFrame) : DataFrame :=
  filter (fun r => last_7_days today <=? date r) df.

(** [.strftime("%B %d, %Y")] on what [min()] / [max()] returned: a float
    has no such method. *)
Definition strftime (v : Pandas.scalar) : result string :=
  match v with
  | Pandas.SDate d => Ok (Calendar.format_date d)
  | Pandas.SNaN => Raise AttributeError
  end.

Definition date_from (df : DataFrame) : result string :=
  strftime (Pandas.series_min (map date df)).

Definition date_to (df : DataFrame) : result string :=
  strftime (Pandas.series_max (map date df)).

(** ** Lines 43-69: the aggregates *)

Definition sentiment_counts (df : DataFrame) : list (string * nat) :=
  Pandas.value_counts (map (fun r => Some (sentiment r)) df).

(** The variable [text] of line 47 (the row field has that name already). *)
Definition text_corpus (df : DataFrame) : string :=
  String.concat " " (map text df).

Definition sentiment_trend (df : DataFrame) : list (Z * string * nat) :=
  Pandas.groupby_size (map (fun r => (date r, sentiment r)) df).

Definition source_sentiment (df : DataFrame) : list (string * string * nat) :=
  Pandas.groupby_size (map (fun r => (source r, sentiment r)) df).

Definition hourly_sentiment (df : DataFrame) : list (Z * string * nat) :=
  Pandas.groupby_size (map (fun r => (hour r, sentiment r)) df).

(** [explode] on one cell: a list fans out into its elements, an empty
    list leaves one missing value, anything else stays as it is. *)
Definition explode_cell (c : cell) : list (option string) :=
  match c with
  | CList [] => [None]
  | CList l => map Some l
  | CStr s => [Some s]
  end.

(** [df.explode("topics")]: each output row is the record it came from
    with one scalar in its [topics] column. *)
Definition explode (df : DataFrame) : list (Row * option string) :=
  flat_map (fun r => map (pair r) (explode_cell (topics r))) df.

Definition topic_counts (df : DataFrame) : list (string * nat) :=
  Pandas.value_counts (map snd (explode df)).

(** ** Lines 71-73 and 105-122: the headline table *)

Definition markdown_link (r : Row) : string :=
  ("[" ++ title r ++ "](" ++ url r ++ ")")%string.

Definition set_title (r : Row) (t : string) : Row :=
  {| publishedAt := publishedAt r;
     title := t;
     sentiment := sentiment r;
     topics := topics r;
     text := text r;
     source := source r;
     url := url r;
     date := date r;
     hour := hour r |}.

(** Whether a byte continues a multi-byte UTF-8 sequence (10xxxxxx). *)
Definition continuation (a : ascii) : bool :=
  let n := N_of_ascii a in ((128 <=? n) && (n <? 192))%N.

Definition starts_with_continuation (s : string) : bool :=
  match s with
  | String b _ => continuation b
  | EmptyString => false
  end.

(** The characters (code points) of a text held as UTF-8 bytes: what
    iterating over a Python [str] yields. *)
Fixpoint code_points (s : string) : list string :=
  match s with
  | EmptyString => []
  | String a s' =>
      match code_points s' with
      | c :: cs =>
          if starts_with_continuation s'
          then String a c :: cs
          else String a EmptyString :: c :: cs
      | [] => [String a EmptyString]
      end
  end.

(** [", ".join(x)]: over the labels of a list, over the characters of a
    string. *)
Definition join_topics (c : cell) : string :=
  match c with
  | CList l => String.concat ", " l
  | CStr s => String.concat ", " (code_points s)
  end.

(** Line 71 and line 72 on one row: the row with its title rewritten, and
    its value in the new [topics_display] column. *)
Definition display (r : Row) : Row * string :=
  (set_title r (markdown_link r), join_topics (topics r)).

(** Line 73: [sort_values("publishedAt", ascending=False)].  pandas'
    default sort may put rows with equal [publishedAt] in any order; what
    is stated of the sorted frame holds for each such order. *)
Definition df_sorted (df : DataFrame) : list (Row * string) :=
  Pandas.sort_by (fun a b => publishedAt (fst b) <=? publishedAt (fst a))
    (map display df).

Record TableRow : Type := {
  t_source : string;
  t_title : string;
  t_topics_display : string;
  t_sentiment : string;
  t_publishedAt : Z
}.

(** Line 115: the five displayed columns of one row. *)
Definition to_record (x : Row * string) : TableRow :=
  {| t_source := source (fst x);
     t_title := title (fst x);
     t_topics_display := snd x;
     t_sentiment := sentiment (fst x);
     t_publishedAt := publishedAt (fst x) |}.

Record DataTable : Type := {
  data : list TableRow;
  page_size : nat
}.

Definition headline_table (sorted : list (Row * string)) : DataTable :=
  {| data := map to_record sorted;
     page_size := 10 |}.

(** The rows the table shows on page [i] (pages count from 0). *)
Definition page (t : DataTable) (i : nat) : list TableRow :=
  firstn (page_size t) (skipn (i * page_size t) (data t)).

(** ** The script as a whole: module-level variables and statements *)

Record Globals : Type := {
  g_df : DataFrame;
  g_date_from : option string;
  g_date_to : option string;
  g_sentiment_counts : option (list (string * nat));
  g_text : option string;
  g_img_base64 : option string;
  g_sentiment_trend : option (list (Z * string * nat));
  g_source_sentiment : option (list (string * string * nat));
  g_hourly_sentiment : option (list (Z * string * nat));
  g_topic_counts : option (list (string * nat));
  g_df_sorted : option (list (Row * string));
  g_table : option DataTable
}.

(** The module state right after line 33. *)
Definition loaded (df : DataFrame) : Globals :=
  {| g_df := df;
     g_date_from := None; g_date_to := None;
     g_sentiment_counts := None; g_text := None; g_img_base64 := None;
     g_sentiment_trend := None; g_source_sentiment := None;
     g_hourly_sentiment := None; g_topic_counts := None;
     g_df_sorted := None; g_table := None |}.

Definition stmt : Type := Globals -> result Globals.

(** Line 37. *)
Definition filter_stmt (today : Z) : stmt := fun g =>
  Ok {| g_df := filter_stage today (g_df g);
        g_date_from := g_date_from g; g_date_to := g_date_to g;
        g_sentiment_counts := g_sentiment_counts g; g_text := g_text g; g_img_base64 := g_img_base64 g;
        g_sentiment_trend := g_sentiment_trend g;
        g_source_sentiment := g_source_sentiment g;
        g_hourly_sentiment := g_hourly_sentiment g;
        g_topic_counts := g_topic_counts g;
        g_df_sorted := g_df_sorted g; g_table := g_table g |}.

(** Lines 39-40. *)
Definition caption_stmt : stmt := fun g =>
  lo <- date_from (g_df g) ;;
  hi <- date_to (g_df g) ;;
  Ok {| g_df := g_df g;
        g_date_from := Some lo; g_date_to := Some hi;
        g_sentiment_counts := g_sentiment_counts g; g_text := g_text g; g_img_base64 := g_img_base64 g;
        g_sentiment_trend := g_sentiment_trend g;
        g_source_sentiment := g_source_sentiment g;
        g_hourly_sentiment := g_hourly_sentiment g;
        g_topic_counts := g_topic_counts g;
        g_df_sorted := g_df_sorted g; g_table := g_table g |}.

(** Lines 43-69.  Each statement binds one variable to a fresh frame
    computed from [df]; none of them assigns [df] or a column of it. *)

(** Lines 43-44. *)
Definition sentiment_counts_stmt : stmt := fun g =>
  Ok {| g_df := g_df g;
        g_date_from := g_date_from g;
        g_date_to := g_date_to g;
        g_sentiment_counts := Some (sentiment_counts (g_df g));
        g_text := g_text g; g_img_base64 := g_img_base64 g;
        g_sentiment_trend := g_sentiment_trend g;
        g_source_sentiment := g_source_sentiment g;
        g_hourly_sentiment := g_hourly_sentiment g;
        g_topic_counts := g_topic_counts g;
        g_df_sorted := g_df_sorted g;
        g_table := g_table g |}.

(** Line 47. *)
Definition text_stmt : stmt := fun g =>
  Ok {| g_df := g_df g;
        g_date_from := g_date_from g;
        g_date_to := g_date_to g;
        g_sentiment_counts := g_sentiment_counts g;
        g_text := Some (text_corpus (g_df g)); g_img_base64 := g_img_base64 g;
        g_sentiment_trend := g_sentiment_trend g;
        g_source_sentiment := g_source_sentiment g;
        g_hourly_sentiment := g_hourly_sentiment g;
        g_topic_counts := g_topic_counts g;
        g_df_sorted := g_df_sorted g;
        g_table := g_table g |}.

(** Line 58. *)
Definition sentiment_trend_stmt : stmt := fun g =>
  Ok {| g_df := g_df g;
        g_date_from := g_date_from g;
        g_date_to := g_date_to g;
        g_sentiment_counts := g_sentiment_counts g;
        g_text := g_text g; g_img_base64 := g_img_base64 g;
        g_sentiment_trend := Some (sentiment_trend (g_df g));
        g_source_sentiment := g_source_sentiment g;
        g_hourly_sentiment := g_hourly_sentiment g;
        g_topic_counts := g_topic_counts g;
        g_df_sorted := g_df_sorted g;
        g_table := g_table g |}.

(** Line 61. *)
Definition source_sentiment_stmt : stmt := fun g =>
  Ok {| g_df := g_df g;
        g_date_from := g_date_from g;
        g_date_to := g_date_to g;
        g_sentiment_counts := g_sentiment_counts g;
        g_text := g_text g; g_img_base64 := g_img_base64 g;
        g_sentiment_trend := g_sentiment_trend g;
        g_source_sentiment := Some (source_sentiment (g_df g));
        g_hourly_sentiment := g_hourly_sentiment g;
        g_topic_counts := g_topic_counts g;
        g_df_sorted := g_df_sorted g;
        g_table := g_table g |}.

(** Line 64. *)
Definition hourly_sentiment_stmt : stmt := fun g =>
  Ok {| g_df := g_df g;
        g_date_from := g_date_from g;
        g_date_to := g_date_to g;
        g_sentiment_counts := g_sentiment_counts g;
        g_text := g_text g; g_img_base64 := g_img_base64 g;
        g_sentiment_trend := g_sentiment_trend g;
        g_source_sentiment := g_source_sentiment g;
        g_hourly_sentiment := Some (hourly_sentiment (g_df g));
        g_topic_counts := g_topic_counts g;
        g_df_sorted := g_df_sorted g;
        g_table := g_table g |}.

(** Lines 67-68. *)
Definition topic_counts_stmt : stmt := fun g =>
  Ok {| g_df := g_df g;
        g_date_from := g_date_from g;
        g_date_to := g_date_to g;
        g_sentiment_counts := g_sentiment_counts g;
        g_text := g_text g; g_img_base64 := g_img_base64 g;
        g_sentiment_trend := g_sentiment_trend g;
        g_source_sentiment := g_source_sentiment g;
        g_hourly_sentiment := g_hourly_sentiment g;
        g_topic_counts := Some (topic_counts (g_df g));
        g_df_sorted := g_df_sorted g;
        g_table := g_table g |}.

(** Lines 48-56: the word cloud of the corpus as an inline image.
    [render_cloud] stands for what the word-cloud and plotting libraries
    compute from the text: the encoded picture, or the exception they
    raise (a corpus without a word makes [WordCloud.generate] raise
    [ValueError]). *)
Definition wordcloud_stmt (render_cloud : string -> result string) : stmt := fun g =>
  match g_text g with
  | None => Raise (OtherError "NameError")
  | Some corpus =>
      img <- render_cloud corpus ;;
      Ok {| g_df := g_df g;
            g_date_from := g_date_from g;
            g_date_to := g_date_to g;
            g_sentiment_counts := g_sentiment_counts g;
            g_text := g_text g;
            g_img_base64 := Some img;
            g_sentiment_trend := g_sentiment_trend g;
            g_source_sentiment := g_source_sentiment g;
            g_hourly_sentiment := g_hourly_sentiment g;
            g_topic_counts := g_topic_counts g;
            g_df_sorted := g_df_sorted g;
            g_table := g_table g |}
  end.

(** Lines 71-73 and the table of the layout.  Line 71 writes the [title]
    column of [df] in place. *)
Definition presentation_stmt : stmt := fun g =>
  let sorted := df_sorted (g_df g) in
  Ok {| g_df := map (fun r => set_title r (markdown_link r)) (g_df g);
        g_date_from := g_date_from g; g_date_to := g_date_to g;
        g_sentiment_counts := g_sentiment_counts g; g_text := g_text g; g_img_base64 := g_img_base64 g;
        g_sentiment_trend := g_sentiment_trend g;
        g_source_sentiment := g_source_sentiment g;
        g_hourly_sentiment := g_hourly_sentiment g;
        g_topic_counts := g_topic_counts g;
        g_df_sorted := Some sorted;
        g_table := Some (headline_table sorted) |}.

(** The script from line 33 on, statement by statement in program
    order, for the stored [table] and the date [today] that the clock
    gives at line 36.  The figures of lines 45-69 are built by the
    plotting library from the aggregates and are not modelled. *)
Definition app (eval : string -> result cell)
    (render_cloud : string -> result string) (today : Z)
    (table : list QueryRow) : result Globals :=
  df <- load_sentiment_data eval table ;;
  g1 <- filter_stmt today (loaded df) ;;
  g2 <- caption_stmt g1 ;;
  g3 <- sentiment_counts_stmt g2 ;;
  g4 <- text_stmt g3 ;;
  g5 <- wordcloud_stmt render_cloud g4 ;;
  g6 <- sentiment_trend_stmt g5 ;;
  g7 <- source_sentiment_stmt g6 ;;
  g8 <- hourly_sentiment_stmt g7 ;;
  g9 <- topic_counts_stmt g8 ;;
  presentation_stmt g9.

(** The five aggregates held by a module state. *)
Definition aggregates (g : Globals) :=
  (g_sentiment_counts g, g_sentiment_trend g, g_source_sentiment g,
   g_hourly_sentiment g, g_topic_counts g).

(** The five aggregates of a record set. *)
Definition aggregates_of (df : DataFrame) :=
  (Some (sentiment_counts df), Some (sentiment_trend df),
   Some (source_sentiment df), Some (hourly_sentiment df),
   Some (topic_counts df)).

(** ** Lines 43-69 over the objects they create and change

    The statements of the aggregation stage once more, this time with
    the interpreter's objects: a module variable names an object, a
    method call that returns a frame creates a new object, and an
    assignment to [.columns] changes the object it is applied to. *)

Module Store.

(** The body of a frame of counts. *)
Inductive counts : Type :=
| ByLabel (rows : list (string * nat))
| ByTime (rows : list (Z * string * nat))
| BySource (rows : list (string * string * nat)).

(** A frame object: the records, or counts, under its column names. *)
Inductive object : Type :=
| Records (columns : list string) (rows : DataFrame)
| Summary (columns : list string) (body : counts).

Definition width (o : object) : nat :=
  match o with
  | Records columns _ => length columns
  | Summary _ (ByLabel _) => 2
  | Summary _ _ => 3
  end.

Definition rename (o : object) (columns : list string) : object :=
  match o with
  | Records _ rows => Records columns rows
  | Summary _ body => Summary columns body
  end.

(** Objects by address, and the module's names for them (the binding
    made last comes first). *)
Definition heap : Type := list object.
Definition names : Type := list (string * nat).
Definition state : Type := (heap * names)%type.

Fixpoint lookup (env : names) (name : string) : option nat :=
  match env with
  | [] => None
  | (x, a) :: env' => if (name =? x)%string then Some a else lookup env' name
  end.


Fixpoint update (h : heap) (a : nat) (o : object) : heap :=
  match h, a with
  | [], _ => []
  | _ :: h', O => o :: h'
  | x :: h', S a' => x :: update h' a' o
  end.



(** [name.columns = [...]]: the object is changed in place; the number
    of names has to be its number of columns. *)
Definition set_columns (name : string) (columns : list string) (st : state)
    : result state :=
  match lookup (snd st) name with
  | None => Raise (OtherError "NameError")
  | Some a =>
      match nth_error (fst st) a with
      | None => Raise (OtherError "NameError")
      | Some o =>
          if Nat.eqb (length columns) (width o)
          then Ok (update (fst st) a (rename o columns), snd st)
          else Raise ValueError
      end
  end.









(** A state with nothing but the frame of records. *)
Definition initial (rows : DataFrame) : state :=
  ([Records ["publishedAt"; "title"; "sentiment"; "topics"; "text"; "source";
             "url"; "date"; "hour"] rows],
   [("df", 0%nat)]).

End Store.

(** ** Observations used to state the properties *)

(** The topic labels a [topics] cell carries into the exploded frame. *)
Definition cell_labels (c : cell) : list string :=
  match c with
  | CList l => l
  | CStr s => [s]
  end.

(** The (record, topic) pairs of a record set. *)
Definition record_topic_pairs (df : DataFrame) : list (Row * string) :=
  flat_map (fun r => map (pair r) (cell_labels (topics r))) df.

(** The records of a given calendar date. *)
Definition on_date (d : Z) (df : DataFrame) : DataFrame :=
  filter (fun r => date r =? d) df.

(** The rows of the daily trend for a given calendar date. *)
Definition trend_on (d : Z) (t : list (Z * string * nat)) : list (Z * string * nat) :=
  Pandas.rows_where (fun k => fst k =? d) t.

(** Number of pages of a table: the row count over the page size, rounded up. *)
Definition page_count (t : DataTable) : nat :=
  ((length (data t) + page_size t - 1) / page_size t)%nat.

Definition pages (t : DataTable) : list (list TableRow) :=
  map (page t) (seq 0 (page_count t)).

(** Most recent first. *)
Definition newest_first {A : Type} (ts : A -> Z) (l : list A) : Prop :=
  StronglySorted (fun a b => b <= a) (map ts l).

(** ** Sample data *)

Module Sample.

(** 2025-11-04 as a day number. *)
Definition today : Z := 20396.

Definition mk (ts : Z) (ttl sent : string) (tp : cell) (src : string) : QueryRow :=
  {| q_publishedAt := ts;
     q_title := ttl;
     q_sentiment := sent;
     q_topics := tp;
     q_text := ttl;
     q_source := src;
     q_url := ("https://news.example/" ++ ttl)%string |}.

(** Published 2025-11-04 10:30, 2025-11-01 23:05, 2025-10-25 08:00 and
    2025-11-05 01:15 (UTC). *)
Definition q_recent : QueryRow :=
  mk 1762252200000000 "chips" "positive" (CStr "['ai', 'cloud']") "wire".
Definition q_untagged : QueryRow :=
  mk 1762038300000000 "merger" "negative" (CStr "[]") "daily".
Definition q_old : QueryRow :=
  mk 1761379200000000 "recall" "negative" (CStr "['ai']") "wire".
Definition q_ahead : QueryRow :=
  mk 1762305300000000 "launch" "positive" (CStr "['cloud']") "daily".

(** A table whose [topics] column holds lists already. *)
Definition q_listed : QueryRow :=
  mk 1762252200000000 "chips" "positive" (CList ["ai"; "cloud"]) "wire".

Definition table : list QueryRow := [q_old; q_recent; q_ahead; q_untagged].

(** A table whose latest row holds a list and whose other row holds text. *)
Definition mixed_table : list QueryRow := [q_untagged; q_listed].

(** What [eval] gives on the texts stored in the sample table. *)
Definition eval (s : string) : result cell :=
  if (s =? "['ai', 'cloud']")%string then Ok (CList ["ai"; "cloud"])
  else if (s =? "['ai']")%string then Ok (CList ["ai"])
  else if (s =? "['cloud']")%string then Ok (CList ["cloud"])
  else if (s =? "[]")%string then Ok (CList [])
  else if (s =? "[][0]")%string then Raise IndexError
  else Raise SyntaxError.

(** A stand-in for the word-cloud rendering: it needs a word. *)
Definition render_cloud (corpus : string) : result string :=
  if (corpus =? "")%string then Raise ValueError else Ok ("png:" ++ corpus)%string.

(** Rows of a loaded frame. *)
Definition row (q : QueryRow) : Row := with_time_fields q (q_publishedAt q * 1000).
Definition recent : Row := set_topics (row q_recent) (CList ["ai"; "cloud"]).
Definition untagged : Row := set_topics (row q_untagged) (CList []).
Definition old : Row := set_topics (row q_old) (CList ["ai"]).
Definition ahead : Row := set_topics (row q_ahead) (CList ["cloud"]).

End Sample.

(** ** Further observations *)

(** The order of a label type is a total order. *)
Class LabelOrd (K : Type) `{Label K} : Prop := {
  label_leb_total : forall a b : K, label_leb a b = true \/ label_leb b a = true;
  label_leb_trans : forall a b c : K,
    label_leb a b = true -> label_leb b c = true -> label_leb a c = true;
  label_leb_antisym : forall a b : K,
    label_leb a b = true -> label_leb b a = true -> a = b
}.

(** The records carrying a given sentiment label. *)
Definition with_sentiment (s : string) (df : DataFrame) : DataFrame :=
  filter (fun r => (sentiment r =? s)%string) df.

(** The records that carry no topic label. *)
Definition no_labels (r : Row) : bool :=
  match cell_labels (topics r) with
  | [] => true
  | _ :: _ => false
  end.

(** Nanoseconds in a day and in an hour. *)
Definition day_ns : Z := 86400000000000.
Definition hour_ns : Z := 3600000000000.

(** * Properties *)

(** ** Labels *)

#[export] Instance string_LabelEq : LabelEq string.
Proof. exact String.eqb_eq. Qed.

#[export] Instance Z_LabelEq : LabelEq Z.
Proof. exact Z.eqb_eq. Qed.

#[export] Instance pair_LabelEq {A B : Type} `{LabelEq A} `{LabelEq B} :
  LabelEq (A * B).
Proof.
  intros [a b] [a' b']; simpl.
  rewrite andb_true_iff, !label_eqb_eq.
  split; [intros [-> ->]; reflexivity | intros E; inversion E; auto].
Qed.

(** ** Sorting *)

Section SortFacts.
Context {A : Type} (leb : A -> A -> bool).

Lemma insert_sorted_perm (x : A) (l : list A) :
  Permutation (x :: l) (Pandas.insert_sorted leb x l).
Proof.
  induction l as [|y l IH]; simpl.
  - apply Permutation_refl.
  - destruct (leb x y).
    + apply Permutation_refl.
    + eapply perm_trans; [apply perm_swap|].
      apply perm_skip, IH.
Qed.

Lemma sort_by_perm (l : list A) : Permutation l (Pandas.sort_by leb l).
Proof.
  induction l as [|x l IH]; simpl.
  - constructor.
  - eapply perm_trans; [apply perm_skip, IH | apply insert_sorted_perm].
Qed.

Lemma sort_by_length (l : list A) : length (Pandas.sort_by leb l) = length l.
Proof. symmetry; apply Permutation_length, sort_by_perm. Qed.

Hypothesis leb_total : forall a b, leb a b = true \/ leb b a = true.
Hypothesis leb_trans :
  forall a b c, leb a b = true -> leb b c = true -> leb a c = true.

Lemma insert_sorted_sorted (x : A) (l : list A) :
  StronglySorted (fun a b => leb a b = true) l ->
  StronglySorted (fun a b => leb a b = true) (Pandas.insert_sorted leb x l).
Proof.
  induction 1 as [|y l Hs IH Hy]; simpl.
  - repeat constructor.
  - destruct (leb x y) eqn:E.
    + constructor; [constructor; assumption|].
      constructor; [exact E|].
      eapply Forall_impl; [|exact Hy].
      intros z Hz; exact (leb_trans _ _ _ E Hz).
    + constructor; [exact IH|].
      assert (Hyx : leb y x = true)
        by (destruct (leb_total x y) as [C|C]; [congruence | exact C]).
      eapply Permutation_Forall; [apply insert_sorted_perm|].
      constructor; assumption.
Qed.

Lemma sort_by_sorted (l : list A) :
  StronglySorted (fun a b => leb a b = true) (Pandas.sort_by leb l).
Proof.
  induction l as [|x l IH]; simpl.
  - constructor.
  - apply insert_sorted_sorted, IH.
Qed.

End SortFacts.

Lemma firstn_incl {A : Type} (n : nat) (l : list A) (y : A) :
  In y (firstn n l) -> In y l.
Proof.
  revert n; induction l as [|x l IH]; intros [|n]; simpl; try tauto.
  intros [E|Hy]; [left; exact E | right; eapply IH; exact Hy].
Qed.

Lemma StronglySorted_firstn {A : Type} (R : A -> A -> Prop) (n : nat) (l : list A) :
  StronglySorted R l -> StronglySorted R (firstn n l).
Proof.
  intros Hs; revert n.
  induction Hs as [|x l Hs IH Hx]; intros [|n]; simpl; try constructor.
  - apply IH.
  - rewrite Forall_forall in *; intros y Hy.
    apply Hx; eapply firstn_incl; exact Hy.
Qed.

Lemma StronglySorted_map {A B : Type} (f : A -> B) (R : B -> B -> Prop) (l : list A) :
  StronglySorted (fun a b => R (f a) (f b)) l -> StronglySorted R (map f l).
Proof.
  induction 1 as [|x l Hs IH Hx]; simpl; constructor; auto.
  rewrite Forall_forall in *; intros y Hy.
  apply in_map_iff in Hy; destruct Hy as [z [<- Hz]]; auto.
Qed.

(** ** Counting *)

Section CountFacts.
Context {K : Type} `{LabelEq K}.

Lemma total_app (s t : list (K * nat)) :
  Pandas.total (s ++ t) = (Pandas.total s + Pandas.total t)%nat.
Proof. induction s as [|[k n] s IH]; simpl; [reflexivity | rewrite IH; lia]. Qed.

Lemma total_perm (s t : list (K * nat)) :
  Permutation s t -> Pandas.total s = Pandas.total t.
Proof. induction 1; simpl; lia. Qed.

Lemma total_filter_perm (p : K * nat -> bool) (s t : list (K * nat)) :
  Permutation s t -> Pandas.total (filter p s) = Pandas.total (filter p t).
Proof.
  induction 1 as [|x s t _ IH|x y s|s t u _ IH1 _ IH2]; simpl.
  - reflexivity.
  - destruct (p x); simpl; lia.
  - destruct (p x), (p y); simpl; lia.
  - lia.
Qed.

Lemma total_bump_where (p : K -> bool) (k : K) (acc : list (K * nat)) :
  Pandas.total (Pandas.rows_where p (Pandas.bump k acc)) =
  ((if p k then 1 else 0) + Pandas.total (Pandas.rows_where p acc))%nat.
Proof.
  induction acc as [|[k' n] acc IH]; simpl.
  - destruct (p k); reflexivity.
  - destruct (label_eqb k k') eqn:E; simpl.
    + apply label_eqb_eq in E; subst k'.
      destruct (p k); simpl; lia.
    + destruct (p k'); simpl; rewrite IH; lia.
Qed.

Lemma total_tally_where_acc (p : K -> bool) (keys : list K) (acc : list (K * nat)) :
  Pandas.total (Pandas.rows_where p (fold_left (fun a k => Pandas.bump k a) keys acc)) =
  (length (filter p keys) + Pandas.total (Pandas.rows_where p acc))%nat.
Proof.
  revert acc; induction keys as [|k keys IH]; intros acc; simpl.
  - reflexivity.
  - rewrite IH, total_bump_where.
    destruct (p k); simpl; lia.
Qed.

Lemma total_tally_where (p : K -> bool) (keys : list K) :
  Pandas.total (Pandas.rows_where p (Pandas.tally keys)) = length (filter p keys).
Proof. unfold Pandas.tally; rewrite total_tally_where_acc; simpl; lia. Qed.

Lemma rows_where_all (t : list (K * nat)) : Pandas.rows_where (fun _ => true) t = t.
Proof. induction t as [|x t IH]; simpl; [reflexivity | f_equal; exact IH]. Qed.

Lemma filter_all {X : Type} (l : list X) : filter (fun _ => true) l = l.
Proof. induction l as [|x l IH]; simpl; [reflexivity | f_equal; exact IH]. Qed.

Lemma total_tally (keys : list K) :
  Pandas.total (Pandas.tally keys) = length keys.
Proof.
  rewrite <- (rows_where_all (Pandas.tally keys)), total_tally_where, filter_all.
  reflexivity.
Qed.

Lemma total_value_counts_where (p : K -> bool) (col : list (option K)) :
  Pandas.total (Pandas.rows_where p (Pandas.value_counts col)) =
  length (filter p (Pandas.dropna col)).
Proof.
  unfold Pandas.value_counts, Pandas.rows_where.
  rewrite <- (total_filter_perm _ _ _ (sort_by_perm _ (Pandas.tally (Pandas.dropna col)))).
  apply total_tally_where.
Qed.

Lemma total_value_counts (col : list (option K)) :
  Pandas.total (Pandas.value_counts col) = length (Pandas.dropna col).
Proof.
  unfold Pandas.value_counts.
  rewrite <- (total_perm _ _ (sort_by_perm _ (Pandas.tally (Pandas.dropna col)))).
  apply total_tally.
Qed.

Lemma total_groupby_size_where (p : K -> bool) (keys : list K) :
  Pandas.total (Pandas.rows_where p (Pandas.groupby_size keys)) = length (filter p keys).
Proof.
  unfold Pandas.groupby_size, Pandas.rows_where.
  rewrite <- (total_filter_perm _ _ _ (sort_by_perm _ (Pandas.tally keys))).
  apply total_tally_where.
Qed.

(** A table of counts has one row per label. *)
Lemma bump_labels (k : K) (acc : list (K * nat)) :
  map fst (Pandas.bump k acc) =
  if existsb (label_eqb k) (map fst acc) then map fst acc else map fst acc ++ [k].
Proof.
  induction acc as [|[k' n] acc IH]; simpl; [reflexivity|].
  destruct (label_eqb k k'); simpl; [reflexivity|].
  rewrite IH; destruct (existsb (label_eqb k) (map fst acc)); reflexivity.
Qed.

Lemma tally_NoDup (keys : list K) : NoDup (map fst (Pandas.tally keys)).
Proof.
  unfold Pandas.tally.
  assert (Hacc : forall acc : list (K * nat), NoDup (map fst acc) ->
            NoDup (map fst (fold_left (fun a k => Pandas.bump k a) keys acc))).
  { induction keys as [|k keys IH]; intros acc Hnd; simpl; [exact Hnd|].
    apply IH; rewrite bump_labels.
    destruct (existsb (label_eqb k) (map fst acc)) eqn:E; [exact Hnd|].
    apply NoDup_rev in Hnd; rewrite <- (rev_involutive (map fst acc ++ [k])).
    apply NoDup_rev; rewrite rev_app_distr; simpl.
    constructor; [|exact Hnd].
    rewrite <- in_rev; intros Hin.
    assert (existsb (label_eqb k) (map fst acc) = true); [|congruence].
    apply existsb_exists; exists k; split; [exact Hin | apply label_eqb_eq; reflexivity]. }
  apply Hacc; constructor.
Qed.

Lemma value_counts_NoDup (col : list (option K)) :
  NoDup (map fst (Pandas.value_counts col)).
Proof.
  eapply Permutation_NoDup; [|apply tally_NoDup].
  apply Permutation_map, sort_by_perm.
Qed.

Lemma groupby_size_NoDup (keys : list K) :
  NoDup (map fst (Pandas.groupby_size keys)).
Proof.
  eapply Permutation_NoDup; [|apply tally_NoDup].
  apply Permutation_map, sort_by_perm.
Qed.

Lemma dropna_app (s t : list (option K)) :
  Pandas.dropna (s ++ t) = Pandas.dropna s ++ Pandas.dropna t.
Proof.
  induction s as [|[k|] s IH]; simpl; [reflexivity | f_equal; exact IH | exact IH].
Qed.

Lemma dropna_map_Some {X : Type} (f : X -> K) (l : list X) :
  Pandas.dropna (map (fun x => Some (f x)) l) = map f l.
Proof. induction l as [|x l IH]; simpl; [reflexivity | f_equal; exact IH]. Qed.

End CountFacts.

(** ** The aggregates *)

Lemma length_filter_map {A B : Type} (f : A -> B) (p : B -> bool) (l : list A) :
  length (filter p (map f l)) = length (filter (fun x => p (f x)) l).
Proof.
  induction l as [|x l IH]; simpl; [reflexivity|].
  destruct (p (f x)); simpl; rewrite IH; reflexivity.
Qed.

(** C2.  The counts of the sentiment distribution add up to the number of
    records of the set they were computed from; this holds for every
    record set, the filtered one in particular. *)
Theorem sentiment_counts_total (df : DataFrame) :
  Pandas.total (sentiment_counts df) = length df.
Proof.
  unfold sentiment_counts.
  rewrite total_value_counts, dropna_map_Some.
  apply length_map.
Qed.

(** C4.  For a date [d], the counts of the daily trend over all the
    sentiment labels of that date add up to the number of records dated
    [d].  It holds for every date, those occurring in the set among them. *)
Theorem sentiment_trend_daily_total (df : DataFrame) (d : Z) :
  Pandas.total (trend_on d (sentiment_trend df)) = length (on_date d df).
Proof.
  unfold trend_on, sentiment_trend, on_date.
  rewrite total_groupby_size_where.
  apply (length_filter_map (fun r => (date r, sentiment r)) (fun k => fst k =? d)).
Qed.

Example load_sample :
  load_sentiment_data Sample.eval Sample.table =
  Ok [Sample.ahead; Sample.recent; Sample.untagged; Sample.old].
Proof. vm_compute. reflexivity. Qed.

Example filter_sample :
  filter_stage Sample.today [Sample.ahead; Sample.recent; Sample.untagged; Sample.old] =
  [Sample.ahead; Sample.recent; Sample.untagged].
Proof. vm_compute. reflexivity. Qed.

Example topic_counts_sample :
  topic_counts [Sample.ahead; Sample.recent; Sample.untagged] = [("cloud", 2%nat); ("ai", 1%nat)].
Proof. vm_compute. reflexivity. Qed.

Example sentiment_trend_sample :
  sentiment_trend [Sample.ahead; Sample.recent; Sample.untagged] =
  [((20393, "negative"), 1%nat); ((20396, "positive"), 1%nat); ((20397, "positive"), 1%nat)].
Proof. vm_compute. reflexivity. Qed.

Example caption_sample :
  date_from [Sample.ahead; Sample.recent; Sample.untagged] = Ok "November 01, 2025" /\
  date_to [Sample.ahead; Sample.recent; Sample.untagged] = Ok "November 05, 2025".
Proof. split; vm_compute; reflexivity. Qed.

(** ** Topic counts *)

Lemma map_snd_pair {A B : Type} (a : A) (l : list B) : map snd (map (pair a) l) = l.
Proof. induction l as [|b l IH]; simpl; [reflexivity | f_equal; exact IH]. Qed.

Lemma dropna_Some (l : list string) : Pandas.dropna (map Some l) = l.
Proof. induction l as [|x l IH]; simpl; [reflexivity | f_equal; exact IH]. Qed.

Lemma dropna_explode_cell (c : cell) :
  Pandas.dropna (explode_cell c) = cell_labels c.
Proof.
  destruct c as [s|[|x l]]; simpl; try reflexivity.
  f_equal; apply dropna_Some.
Qed.

(** The values that survive in the exploded [topics] column are the
    topics of the (record, topic) pairs, in the same order. *)
Lemma dropna_explode (df : DataFrame) :
  Pandas.dropna (map snd (explode df)) = map snd (record_topic_pairs df).
Proof.
  unfold explode, record_topic_pairs.
  induction df as [|r df IH]; simpl; [reflexivity|].
  rewrite !map_app, dropna_app, IH, !map_snd_pair, dropna_explode_cell.
  reflexivity.
Qed.

Lemma topic_counts_total (df : DataFrame) :
  Pandas.total (topic_counts df) = length (record_topic_pairs df).
Proof.
  unfold topic_counts.
  rewrite total_value_counts, dropna_explode.
  apply length_map.
Qed.

Lemma record_topic_pairs_fan_out (df : DataFrame) :
  Forall (fun r => cell_labels (topics r) <> []) df ->
  (length df <= length (record_topic_pairs df))%nat.
Proof.
  unfold record_topic_pairs.
  induction 1 as [|r df Hr _ IH]; simpl; [lia|].
  rewrite length_app, length_map.
  destruct (cell_labels (topics r)); [congruence | simpl; lia].
Qed.

(** C3, as the code has it.  The topic counts add up to the number of
    (record, topic) pairs; they reach the number of records when every
    record carries at least one topic. *)
Theorem topic_counts_pairs (df : DataFrame) :
  Pandas.total (topic_counts df) = length (record_topic_pairs df) /\
  (Forall (fun r => cell_labels (topics r) <> []) df ->
   (length df <= Pandas.total (topic_counts df))%nat).
Proof.
  split.
  - apply topic_counts_total.
  - intros Hne; rewrite topic_counts_total.
    apply record_topic_pairs_fan_out, Hne.
Qed.

Lemma topic_counts_pairs_witness :
  Forall (fun r => cell_labels (topics r) <> []) [Sample.ahead; Sample.recent] /\
  (length [Sample.ahead; Sample.recent] <=
   Pandas.total (topic_counts [Sample.ahead; Sample.recent]))%nat.
Proof.
  assert (Hne : Forall (fun r => cell_labels (topics r) <> [])
                  [Sample.ahead; Sample.recent])
    by (repeat constructor; discriminate).
  split; [exact Hne|].
  exact (proj2 (topic_counts_pairs [Sample.ahead; Sample.recent]) Hne).
Defined.

(** C3 as stated fails: a set whose only record has no topic has one
    record and topic counts that add up to 0. *)
Lemma topic_counts_below_record_count :
  ~ ((length [Sample.untagged] <= Pandas.total (topic_counts [Sample.untagged]))%nat /\
     Pandas.total (topic_counts [Sample.untagged]) =
     length (record_topic_pairs [Sample.untagged])).
Proof. vm_compute. intros [Hle _]. inversion Hle. Qed.

(** C8.  A record whose [topics] list is empty leaves only a missing value
    in the exploded frame, so the topic counts are the same with and
    without it, while the sentiment distribution gains one record: its
    total and the count of the record's own label go up by one, and no
    other label's count changes. *)
Theorem empty_topics_contribution (before after : DataFrame) (r : Row) :
  topics r = CList [] ->
  Pandas.dropna (map snd (explode [r])) = [] /\
  topic_counts (before ++ r :: after) = topic_counts (before ++ after) /\
  Pandas.total (sentiment_counts (before ++ r :: after)) =
    S (Pandas.total (sentiment_counts (before ++ after))) /\
  Pandas.count_of (sentiment r) (sentiment_counts (before ++ r :: after)) =
    S (Pandas.count_of (sentiment r) (sentiment_counts (before ++ after))) /\
  (forall s, s <> sentiment r ->
     Pandas.count_of s (sentiment_counts (before ++ r :: after)) =
     Pandas.count_of s (sentiment_counts (before ++ after))).
Proof.
  intros Hr.
  assert (Hcount : forall s df,
    Pandas.count_of s (sentiment_counts df) =
    length (filter (label_eqb s) (map sentiment df))).
  { intros s df; unfold Pandas.count_of, sentiment_counts.
    rewrite total_value_counts_where, dropna_map_Some; reflexivity. }
  repeat split.
  - unfold explode; simpl; rewrite Hr; reflexivity.
  - unfold topic_counts, Pandas.value_counts.
    replace (Pandas.dropna (map snd (explode (before ++ r :: after))))
      with (Pandas.dropna (map snd (explode (before ++ after))));
      [reflexivity|].
    unfold explode.
    rewrite !flat_map_app; simpl; rewrite Hr; simpl.
    rewrite !map_app, !dropna_app; reflexivity.
  - unfold sentiment_counts.
    rewrite !total_value_counts, !dropna_map_Some, !length_map, !length_app.
    simpl; lia.
  - rewrite !Hcount, !map_app, !filter_app; simpl.
    replace (String.eqb (sentiment r) (sentiment r)) with true
      by (symmetry; apply String.eqb_refl).
    rewrite !length_app; simpl; lia.
  - intros s Hs.
    rewrite !Hcount, !map_app, !filter_app; simpl.
    destruct (String.eqb s (sentiment r)) eqn:E.
    + apply String.eqb_eq in E; contradiction.
    + reflexivity.
Qed.

Lemma empty_topics_contribution_witness :
  topics Sample.untagged = CList [] /\
  topic_counts ([Sample.recent] ++ Sample.untagged :: [Sample.ahead]) =
  topic_counts ([Sample.recent] ++ [Sample.ahead]).
Proof.
  split; [reflexivity|].
  exact (proj1 (proj2 (empty_topics_contribution
                         [Sample.recent] [Sample.ahead] Sample.untagged eq_refl))).
Defined.

(** ** The filter *)

(** C1, as the code has it.  Line 37 keeps exactly the records dated
    [today - 7] or later, so every retained record is at most seven days
    old and no older record survives; a later bound is not applied. *)
Theorem filter_stage_window (today : Z) (df : DataFrame) (r : Row) :
  In r (filter_stage today df) <-> In r df /\ today - 7 <= date r.
Proof.
  unfold filter_stage, last_7_days.
  rewrite filter_In, Z.leb_le.
  reflexivity.
Qed.

(** C1 as stated fails: a record published on 2025-11-05 (UTC) is kept
    when the clock at line 36 still reads 2025-11-04. *)
Lemma filter_stage_keeps_later_date :
  ~ (In Sample.ahead (filter_stage Sample.today [Sample.old; Sample.ahead]) ->
     Sample.today - 7 <= date Sample.ahead <= Sample.today).
Proof.
  intros Hclaim.
  assert (Hin : In Sample.ahead (filter_stage Sample.today [Sample.old; Sample.ahead]))
    by (vm_compute; left; reflexivity).
  apply Hclaim in Hin.
  vm_compute in Hin.
  destruct Hin as [_ Hle]; apply Hle; reflexivity.
Qed.

(** ** The caption *)

Lemma fold_min_spec (l : list Z) (d : Z) :
  In (fold_left Z.min l d) (d :: l) /\
  Forall (fun x => fold_left Z.min l d <= x) (d :: l).
Proof.
  revert d; induction l as [|x l IH]; intros d; simpl.
  - split; [left; reflexivity | repeat constructor; lia].
  - destruct (IH (Z.min d x)) as [Hin Hall].
    inversion Hall as [|? ? Hm Hl]; subst.
    split.
    + destruct Hin as [E|Hin].
      * rewrite <- E.
        destruct (Z.min_spec d x) as [[_ ->]|[_ ->]]; auto.
      * right; right; exact Hin.
    + constructor; [lia|].
      constructor; [lia | exact Hl].
Qed.

Lemma fold_max_spec (l : list Z) (d : Z) :
  In (fold_left Z.max l d) (d :: l) /\
  Forall (fun x => x <= fold_left Z.max l d) (d :: l).
Proof.
  revert d; induction l as [|x l IH]; intros d; simpl.
  - split; [left; reflexivity | repeat constructor; lia].
  - destruct (IH (Z.max d x)) as [Hin Hall].
    inversion Hall as [|? ? Hm Hl]; subst.
    split.
    + destruct Hin as [E|Hin].
      * rewrite <- E.
        destruct (Z.max_spec d x) as [[_ ->]|[_ ->]]; auto.
      * right; right; exact Hin.
    + constructor; [lia|].
      constructor; [lia | exact Hl].
Qed.

(** On a frame with rows, [min()] and [max()] return the earliest and the
    latest date of the [date] column. *)
Lemma series_extremes (df : DataFrame) :
  df <> [] ->
  exists lo hi,
    Pandas.series_min (map date df) = Pandas.SDate lo /\
    Pandas.series_max (map date df) = Pandas.SDate hi /\
    In lo (map date df) /\ In hi (map date df) /\
    forall r, In r df -> lo <= date r <= hi.
Proof.
  destruct df as [|r0 df]; [congruence | intros _].
  simpl.
  destruct (fold_min_spec (map date df) (date r0)) as [Hlo Hmin].
  destruct (fold_max_spec (map date df) (date r0)) as [Hhi Hmax].
  exists (fold_left Z.min (map date df) (date r0)),
         (fold_left Z.max (map date df) (date r0)).
  repeat split; auto.
  - rewrite Forall_forall in Hmin; apply Hmin.
    change (In (date r) (map date (r0 :: df))); apply in_map; assumption.
  - rewrite Forall_forall in Hmax; apply Hmax.
    change (In (date r) (map date (r0 :: df))); apply in_map; assumption.
Qed.

(** C7.  After the filter of line 37, lines 39-40 raise [AttributeError]
    when no record was retained; when some was, they bind [date_from] and
    [date_to] to the formatted earliest and latest retained dates. *)
Theorem caption_after_filter (today : Z) (loaded_df : DataFrame) :
  let df := filter_stage today loaded_df in
  let run := g <- filter_stmt today (loaded loaded_df) ;; caption_stmt g in
  (df = [] -> run = Raise AttributeError) /\
  (df <> [] ->
   exists lo hi g',
     run = Ok g' /\
     g_date_from g' = Some (Calendar.format_date lo) /\
     g_date_to g' = Some (Calendar.format_date hi) /\
     In lo (map date df) /\ In hi (map date df) /\
     forall r, In r df -> lo <= date r <= hi).
Proof.
  intros df run; subst run; unfold filter_stmt, caption_stmt; simpl.
  fold df.
  split.
  - intros ->; reflexivity.
  - intros Hne.
    destruct (series_extremes df Hne) as (lo & hi & Hmin & Hmax & Hlo & Hhi & Hall).
    exists lo, hi.
    unfold date_from, date_to; rewrite Hmin, Hmax; simpl.
    eexists; repeat split; auto; apply Hall; assumption.
Qed.

Lemma caption_after_filter_witness :
  (filter_stage Sample.today [Sample.old] = [] /\
   (g <- filter_stmt Sample.today (loaded [Sample.old]) ;; caption_stmt g)
   = Raise AttributeError) /\
  (filter_stage Sample.today [Sample.recent; Sample.untagged] <> [] /\
   exists g',
     (g <- filter_stmt Sample.today (loaded [Sample.recent; Sample.untagged]) ;;
      caption_stmt g) = Ok g' /\
     g_date_from g' = Some "November 01, 2025" /\
     g_date_to g' = Some "November 04, 2025").
Proof.
  split.
  - assert (He : filter_stage Sample.today [Sample.old] = []) by reflexivity.
    split; [exact He|].
    exact (proj1 (caption_after_filter Sample.today [Sample.old]) He).
  - assert (Hne : filter_stage Sample.today [Sample.recent; Sample.untagged] <> [])
      by (vm_compute; discriminate).
    split; [exact Hne|].
    destruct (proj2 (caption_after_filter Sample.today
                       [Sample.recent; Sample.untagged]) Hne)
      as (lo & hi & g' & Hrun & _).
    exists g'; split; [exact Hrun|].
    vm_compute in Hrun; injection Hrun as <-; split; reflexivity.
Defined.

(** The script as a whole stops with that error when the loader returned
    a frame and the filter retained none of its records. *)
Lemma app_raises_on_empty_window eval render_cloud today table loaded_df :
  load_sentiment_data eval table = Ok loaded_df ->
  filter_stage today loaded_df = [] ->
  app eval render_cloud today table = Raise AttributeError.
Proof.
  intros Hload Hempty; unfold app; rewrite Hload; cbn [bind].
  change (filter_stmt today (loaded loaded_df))
    with (Ok (loaded (filter_stage today loaded_df))).
  cbn [bind]; unfold caption_stmt, date_from.
  cbn [g_df loaded]; rewrite Hempty; reflexivity.
Qed.

Example app_sample_stale :
  app Sample.eval Sample.render_cloud Sample.today [Sample.q_old] =
  Raise AttributeError.
Proof. vm_compute. reflexivity. Qed.

(** ** The aggregation stage as statements *)













(** A [.columns] assignment aimed at the frame of records would not go
    unnoticed: it raises, or changes that object. *)
Example set_columns_on_df :
  Store.set_columns "df" ["sentiment"; "count"]
    (Store.initial [Sample.recent]) = Raise ValueError.
Proof. reflexivity. Qed.

(** ** The headline table *)

Lemma StronglySorted_impl {A : Type} (R Q : A -> A -> Prop) (l : list A) :
  (forall a b, R a b -> Q a b) -> StronglySorted R l -> StronglySorted Q l.
Proof.
  intros HRQ; induction 1 as [|x l Hs IH Hx]; constructor; auto.
  eapply Forall_impl; [|exact Hx]; auto.
Qed.

(** Sorting by a timestamp, latest first, gives a list that is
    [newest_first]. *)
Lemma sort_by_newest_first {A : Type} (ts : A -> Z) (l : list A) :
  newest_first ts (Pandas.sort_by (fun a b => ts b <=? ts a) l).
Proof.
  unfold newest_first.
  apply StronglySorted_map.
  eapply StronglySorted_impl; [|apply sort_by_sorted].
  - intros a b Hab; apply Z.leb_le; exact Hab.
  - intros a b.
    destruct (Z.leb_spec (ts b) (ts a)); [left; reflexivity | right; apply Z.leb_le; lia].
  - intros a b c Hab Hbc.
    apply Z.leb_le in Hab, Hbc; apply Z.leb_le; lia.
Qed.

(** Cutting a list into [n] chunks of [k] elements and gluing them back. *)
Lemma concat_chunks {A : Type} (k n : nat) (l : list A) :
  (length l <= n * k)%nat ->
  concat (map (fun i => firstn k (skipn (i * k) l)) (seq 0 n)) = l.
Proof.
  revert l; induction n as [|n IH]; intros l Hlen.
  - destruct l; [reflexivity | simpl in Hlen; lia].
  - simpl seq; rewrite <- seq_shift, map_cons, map_map; simpl concat.
    transitivity (firstn k l ++ skipn k l); [|apply firstn_skipn].
    f_equal.
    transitivity
      (concat (map (fun i => firstn k (skipn (i * k) (skipn k l))) (seq 0 n))).
    + f_equal; apply map_ext; intros i.
      rewrite skipn_skipn.
      do 2 f_equal; lia.
    + apply IH.
      rewrite length_skipn; simpl in Hlen; lia.
Qed.

Lemma page_count_covers (t : DataTable) :
  (0 < page_size t)%nat -> (length (data t) <= page_count t * page_size t)%nat.
Proof.
  intros Hk; unfold page_count.
  pose proof (Nat.div_mod_eq (length (data t) + page_size t - 1) (page_size t)) as E.
  pose proof (Nat.mod_upper_bound (length (data t) + page_size t - 1) (page_size t)) as U.
  nia.
Qed.

(** C5.  The table holds one row per record of the set (the displayed
    columns of each record, rearranged), latest [publishedAt] first, and
    shows them ten to a page: the pages in order make up the rows, and
    page [i] holds the rows from position [10 * i] on, ten of them at
    most. *)
Theorem headline_table_rows (df : DataFrame) :
  let t := headline_table (df_sorted df) in
  length (data t) = length df /\
  Permutation (map (fun r => to_record (display r)) df) (data t) /\
  newest_first t_publishedAt (data t) /\
  page_size t = 10%nat /\
  concat (pages t) = data t /\
  forall i, length (page t i) = Nat.min 10 (length df - i * 10).
Proof.
  intros t.
  assert (Hlen : length (data t) = length df).
  { unfold t, headline_table, df_sorted; simpl.
    rewrite length_map, sort_by_length, length_map; reflexivity. }
  split; [exact Hlen|].
  split.
  { unfold t, headline_table, df_sorted; simpl.
    rewrite <- (map_map display to_record).
    apply Permutation_map, sort_by_perm. }
  split.
  { unfold t, headline_table, df_sorted, newest_first; simpl.
    rewrite map_map; simpl.
    apply (sort_by_newest_first (fun x : Row * string => publishedAt (fst x))). }
  split; [reflexivity|].
  split.
  { unfold pages, page.
    apply concat_chunks.
    apply page_count_covers; simpl; lia. }
  intros i; unfold page.
  rewrite length_firstn, length_skipn, Hlen; reflexivity.
Qed.

Example headline_table_sample :
  map t_title (data (headline_table (df_sorted [Sample.untagged; Sample.ahead; Sample.recent]))) =
  ["[launch](https://news.example/launch)";
   "[chips](https://news.example/chips)";
   "[merger](https://news.example/merger)"] /\
  map t_topics_display
    (data (headline_table (df_sorted [Sample.untagged; Sample.ahead; Sample.recent]))) =
  ["cloud"; "ai, cloud"; ""].
Proof. split; vm_compute; reflexivity. Qed.

(** ** The loader *)

Lemma mapM_Forall2 {A B : Type} (f : A -> result B) (l : list A) (l' : list B) :
  mapM f l = Ok l' -> Forall2 (fun x y => f x = Ok y) l l'.
Proof.
  revert l'; induction l as [|x l IH]; intros l' Hm; simpl in Hm.
  - injection Hm as <-; constructor.
  - destruct (f x) as [y|e] eqn:Ef; simpl in Hm; [|discriminate].
    destruct (mapM f l) as [ys|e] eqn:Em; simpl in Hm; [|discriminate].
    injection Hm as <-; constructor; auto.
Qed.

Lemma mapM_returns {A B : Type} (f : A -> result B) (l : list A) :
  (exists l', mapM f l = Ok l') <-> Forall (fun x => exists y, f x = Ok y) l.
Proof.
  split.
  - intros [l' Hm]; apply mapM_Forall2 in Hm.
    induction Hm; constructor; eauto.
  - induction 1 as [|x l [y Hy] _ [ys Hys]]; simpl.
    + eexists; reflexivity.
    + rewrite Hy, Hys; simpl; eexists; reflexivity.
Qed.

Lemma mapM_raises {A B : Type} (f : A -> result B) (l : list A) (e : exn) :
  mapM f l = Raise e -> exists x, In x l /\ f x = Raise e.
Proof.
  induction l as [|x l IH]; simpl; [discriminate|].
  destruct (f x) as [y|e'] eqn:Ex; simpl.
  - destruct (mapM f l) as [ys|e'']; simpl; [discriminate|].
    intros E; injection E as <-.
    destruct (IH eq_refl) as (x' & Hx' & Ex'); exists x'; auto.
  - intros E; injection E as <-; exists x; auto.
Qed.

Lemma Forall2_compose {A B C : Type} (P : A -> B -> Prop) (Q : B -> C -> Prop)
    (l1 : list A) (l2 : list B) (l3 : list C) :
  Forall2 P l1 l2 -> Forall2 Q l2 l3 ->
  Forall2 (fun a c => exists b, P a b /\ Q b c) l1 l3.
Proof.
  intros H12; revert l3; induction H12 as [|a b l1 l2 Hab _ IH]; intros l3 H23;
    inversion H23; subst; constructor; eauto.
Qed.

Lemma set_topics_same (r : Row) : set_topics r (topics r) = r.
Proof. destruct r; reflexivity. Qed.

Lemma run_query_length (table : list QueryRow) :
  length (run_query table) = Nat.min 200 (length table).
Proof. unfold run_query; rewrite length_firstn, sort_by_length; reflexivity. Qed.

Lemma run_query_nil (table : list QueryRow) : run_query table = [] <-> table = [].
Proof.
  split.
  - intros E; pose proof (run_query_length table) as L; rewrite E in L.
    destruct table; [reflexivity | simpl in L; lia].
  - intros ->; reflexivity.
Qed.

Lemma run_query_newest_first (table : list QueryRow) :
  newest_first q_publishedAt (run_query table).
Proof.
  unfold newest_first, run_query.
  rewrite <- firstn_map.
  apply StronglySorted_firstn, (sort_by_newest_first q_publishedAt).
Qed.

Lemma run_query_incl (table : list QueryRow) (q : QueryRow) :
  In q (run_query table) -> In q table.
Proof.
  unfold run_query; intros Hq; apply firstn_incl in Hq.
  eapply Permutation_in; [apply Permutation_sym, sort_by_perm | exact Hq].
Qed.

(** A timestamp parses exactly when its nanosecond count fits. *)
Lemma to_datetime_ok (micros ts : Z) :
  to_datetime micros = Ok ts <-> ts = micros * 1000 /\ ns_min <= ts <= ns_max.
Proof.
  unfold to_datetime; cbv zeta.
  destruct (Z.leb_spec ns_min (micros * 1000));
    destruct (Z.leb_spec (micros * 1000) ns_max); simpl; split;
    try discriminate; try (intros [-> ?]; lia).
  - intros E; injection E as <-; lia.
  - intros [-> _]; reflexivity.
Qed.

Lemma to_datetime_raises (micros : Z) (e : exn) :
  to_datetime micros = Raise e ->
  e = OutOfBoundsDatetime /\ ~ ns_min <= micros * 1000 <= ns_max.
Proof.
  unfold to_datetime; cbv zeta.
  destruct (Z.leb_spec ns_min (micros * 1000));
    destruct (Z.leb_spec (micros * 1000) ns_max); simpl;
    try discriminate; intros E; injection E as <-; split; try reflexivity; lia.
Qed.

Lemma derive_ok (q : QueryRow) (r : Row) :
  derive q = Ok r <->
  exists ts, to_datetime (q_publishedAt q) = Ok ts /\ r = with_time_fields q ts.
Proof.
  unfold derive.
  destruct (to_datetime (q_publishedAt q)) as [ts|e]; simpl; split.
  - intros E; injection E as <-; eauto.
  - intros (ts' & E & ->); injection E as <-; reflexivity.
  - discriminate.
  - intros (ts' & E & _); discriminate.
Qed.

(** The date and the hour of a row built from the timestamp [ts]: the
    hour of the day and the day that [ts] falls in. *)
Lemma time_fields_bracket (q : QueryRow) (ts : Z) :
  let r := with_time_fields q ts in
  0 <= hour r < 24 /\
  date r * day_ns + hour r * hour_ns <= publishedAt r
    < date r * day_ns + (hour r + 1) * hour_ns.
Proof.
  simpl; unfold dt_date, dt_hour, day_ns, hour_ns.
  pose proof (Z.mod_pos_bound (ts / 3600000000000) 24 ltac:(lia)) as Hh.
  split; [exact Hh|].
  pose proof (Z.div_mod ts 3600000000000 ltac:(lia)) as E1.
  pose proof (Z.mod_pos_bound ts 3600000000000 ltac:(lia)) as B1.
  pose proof (Z.div_mod (ts / 3600000000000) 24 ltac:(lia)) as E2.
  assert (E3 : ts / 86400000000000 = ts / 3600000000000 / 24)
    by (rewrite Z.div_div by lia; reflexivity).
  rewrite E3; lia.
Qed.

Section LoaderFacts.
Variable eval : string -> result cell.

(** The ways through the loader. *)
Lemma load_cases (table : list QueryRow) :
  load_sentiment_data eval table =
  (df <- mapM derive (run_query table) ;;
   match df with
   | [] => Raise IndexError
   | r :: _ =>
       match topics r with
       | CStr _ => mapM (decode_row eval) df
       | CList _ => Ok df
       end
   end).
Proof.
  unfold load_sentiment_data.
  destruct (mapM derive (run_query table)) as [[|r df]|e]; reflexivity.
Qed.

Lemma decode_row_ok (r r' : Row) :
  decode_row eval r = Ok r' ->
  exists s, topics r = CStr s /\ eval s = Ok (topics r') /\
            r' = set_topics r (topics r').
Proof.
  unfold decode_row, apply_eval.
  destruct (topics r) as [s|l]; simpl; [|discriminate].
  destruct (eval s) as [v|] eqn:Ev; simpl; [|discriminate].
  intros E; injection E as <-; exists s; auto.
Qed.

Lemma decode_row_returns (r : Row) :
  (exists r', decode_row eval r = Ok r') <->
  (exists s v, topics r = CStr s /\ eval s = Ok v).
Proof.
  split.
  - intros [r' Hr]; apply decode_row_ok in Hr.
    destruct Hr as (s & Hs & Hv & _); eauto.
  - intros (s & v & Hs & Hv).
    unfold decode_row, apply_eval; rewrite Hs, Hv; simpl; eauto.
Qed.

Lemma derived_rows (qs : list QueryRow) (rows : DataFrame) :
  mapM derive qs = Ok rows ->
  Forall2 (fun q r => exists ts, to_datetime (q_publishedAt q) = Ok ts /\
                                 r = with_time_fields q ts) qs rows.
Proof.
  intros Hm; apply mapM_Forall2 in Hm.
  eapply Forall2_impl; [|exact Hm].
  intros q r Hq; apply derive_ok; exact Hq.
Qed.

(** Whatever the loader returns is the query result row by row, with the
    derived columns and with some value in the [topics] column. *)
Lemma load_rows (table : list QueryRow) (df : DataFrame) :
  load_sentiment_data eval table = Ok df ->
  Forall2 (fun q r => exists ts c,
             to_datetime (q_publishedAt q) = Ok ts /\
             r = set_topics (with_time_fields q ts) c) (run_query table) df.
Proof.
  rewrite load_cases.
  destruct (mapM derive (run_query table)) as [rows|e] eqn:Ed; simpl; [|discriminate].
  apply derived_rows in Ed.
  destruct rows as [|r0 rows0] eqn:Er; [discriminate|]; rewrite <- Er in *.
  destruct (topics r0) as [s0|l0].
  - intros Hm; apply mapM_Forall2 in Hm.
    pose proof (Forall2_compose _ _ _ _ _ Ed Hm) as H.
    eapply Forall2_impl; [|exact H].
    intros q r (b & (ts & Hts & ->) & Hb); apply decode_row_ok in Hb.
    destruct Hb as (s & _ & _ & E); exists ts; eexists; split; [exact Hts | exact E].
  - intros E; injection E as <-.
    eapply Forall2_impl; [|exact Ed].
    intros q r (ts & Hts & ->); exists ts, (q_topics q); split; [exact Hts|].
    symmetry; apply (set_topics_same (with_time_fields q ts)).
Qed.

End LoaderFacts.

Lemma derive_in_bounds (qs : list QueryRow) :
  Forall (fun q => ns_min <= q_publishedAt q * 1000 <= ns_max) qs ->
  mapM derive qs =
  Ok (map (fun q => with_time_fields q (q_publishedAt q * 1000)) qs).
Proof.
  induction 1 as [|q qs Hq _ IH]; simpl; [reflexivity|].
  assert (E : derive q = Ok (with_time_fields q (q_publishedAt q * 1000))).
  { apply derive_ok; eexists; split; [|reflexivity].
    apply to_datetime_ok; split; [reflexivity | exact Hq]. }
  rewrite E, IH; reflexivity.
Qed.

Lemma decode_rows_spec (eval : string -> result cell) (qs : list QueryRow)
    (df : DataFrame) :
  mapM (decode_row eval)
    (map (fun q => with_time_fields q (q_publishedAt q * 1000)) qs) = Ok df ->
  Forall2 (fun q r => exists s, q_topics q = CStr s /\ eval s = Ok (topics r)) qs df.
Proof.
  intros Hm; apply mapM_Forall2 in Hm.
  revert df Hm; induction qs as [|q qs IH]; intros df Hm;
    inversion Hm as [|? r ? rs Hq Hqs]; subst; constructor.
  - apply decode_row_ok in Hq; destruct Hq as (s & Hs & Hv & _); eauto.
  - apply IH; exact Hqs.
Qed.

Lemma decode_rows_return (eval : string -> result cell) (qs : list QueryRow) :
  (exists df, mapM (decode_row eval)
                (map (fun q => with_time_fields q (q_publishedAt q * 1000)) qs) = Ok df) <->
  Forall (fun q => exists s v, q_topics q = CStr s /\ eval s = Ok v) qs.
Proof.
  etransitivity; [apply mapM_returns|].
  rewrite !Forall_forall; split.
  - intros Hall q Hq.
    apply (decode_row_returns eval (with_time_fields q (q_publishedAt q * 1000))).
    apply Hall, in_map_iff; eauto.
  - intros Hall r Hr; apply in_map_iff in Hr; destruct Hr as (q & <- & Hq).
    apply decode_row_returns; simpl; apply Hall, Hq.
Qed.

(** C6.  What the loader returns has at most 200 rows (all of the table
    when it holds fewer), latest [publishedAt] first.  Row by row,
    [publishedAt] is the stored time as a nanosecond timestamp within the
    range of such timestamps, [hour] is an hour of the day and [date] a
    day number such that the timestamp falls in that hour of that day.
    Once the query has returned a table with rows, the loader returns when
    every stored time is in range and the [topics] column holds either
    text that evaluates or lists. *)
Theorem load_sentiment_data_result (eval : string -> result cell)
    (table : list QueryRow) :
  (forall df, load_sentiment_data eval table = Ok df ->
     (length df <= 200)%nat /\
     length df = Nat.min 200 (length table) /\
     newest_first publishedAt df /\
     Forall2 (fun q r =>
                publishedAt r = q_publishedAt q * 1000 /\
                ns_min <= publishedAt r <= ns_max /\
                0 <= hour r < 24 /\
                date r * day_ns + hour r * hour_ns <= publishedAt r
                  < date r * day_ns + (hour r + 1) * hour_ns)
       (run_query table) df) /\
  (table <> [] ->
   Forall (fun q => ns_min <= q_publishedAt q * 1000 <= ns_max) table ->
   Forall (fun q => exists s v, q_topics q = CStr s /\ eval s = Ok v) table \/
   Forall (fun q => exists l, q_topics q = CList l) table ->
   exists df, load_sentiment_data eval table = Ok df).
Proof.
  split.
  - intros df Hload; apply load_rows in Hload.
    assert (Hts : map publishedAt df =
                  map (fun x => x * 1000) (map q_publishedAt (run_query table))).
    { rewrite map_map.
      induction Hload as [|q r qs rs (ts & c & Hts & ->) _ IH]; simpl; [reflexivity|].
      apply to_datetime_ok in Hts; destruct Hts as [-> _].
      rewrite IH; reflexivity. }
    assert (Hlen : length df = length (run_query table))
      by (symmetry; eapply Forall2_length; exact Hload).
    pose proof (run_query_length table) as Hq.
    split; [lia|]. split; [lia|]. split.
    + unfold newest_first; rewrite Hts.
      apply StronglySorted_map.
      eapply StronglySorted_impl; [|apply run_query_newest_first].
      intros a b Hab; simpl in *; lia.
    + eapply Forall2_impl; [|exact Hload].
      intros q r (ts & c & Hts' & ->).
      apply to_datetime_ok in Hts'; destruct Hts' as [E Hb].
      split; [exact E|]. split; [exact Hb|].
      exact (time_fields_bracket q ts).
  - intros Hne Hb Hcells.
    assert (Hin : forall x, In x (run_query table) -> In x table)
      by (intros x; apply run_query_incl).
    rewrite Forall_forall in Hb.
    rewrite load_cases, derive_in_bounds
      by (apply Forall_forall; intros x Hx; apply Hb, Hin, Hx).
    destruct (run_query table) as [|q qs] eqn:Eq.
    { apply (proj1 (run_query_nil table)) in Eq; contradiction. }
    assert (Hq0 : In q table) by (apply Hin; left; reflexivity).
    destruct Hcells as [Htext|Hlist].
    + rewrite Forall_forall in Htext.
      destruct (Htext q Hq0) as (s & v & Hs & _).
      simpl; rewrite Hs.
      change (exists df, mapM (decode_row eval)
                (map (fun q => with_time_fields q (q_publishedAt q * 1000))
                   (q :: qs)) = Ok df).
      apply decode_rows_return, Forall_forall.
      intros x Hx; apply Htext, Hin, Hx.
    + rewrite Forall_forall in Hlist.
      destruct (Hlist q Hq0) as (l & Hl).
      simpl; rewrite Hl; eexists; reflexivity.
Qed.

Lemma load_sentiment_data_result_witness :
  (load_sentiment_data Sample.eval Sample.table =
     Ok [Sample.ahead; Sample.recent; Sample.untagged; Sample.old] /\
   (length [Sample.ahead; Sample.recent; Sample.untagged; Sample.old] <= 200)%nat) /\
  (Sample.table <> [] /\
   exists df, load_sentiment_data Sample.eval Sample.table = Ok df).
Proof.
  split.
  - assert (Hload : load_sentiment_data Sample.eval Sample.table =
                    Ok [Sample.ahead; Sample.recent; Sample.untagged; Sample.old])
      by (vm_compute; reflexivity).
    split; [exact Hload|].
    exact (proj1 (proj1 (load_sentiment_data_result Sample.eval Sample.table) _ Hload)).
  - assert (Hne : Sample.table <> []) by discriminate.
    split; [exact Hne|].
    apply (proj2 (load_sentiment_data_result Sample.eval Sample.table) Hne).
    + repeat constructor; vm_compute; discriminate.
    + left; repeat constructor; eexists; eexists; split; reflexivity.
Defined.

(** C10.  On an empty query result the loader raises [IndexError] at the
    check of line 29.  Otherwise, the timestamps having parsed, the first
    returned row decides: when its [topics] value is text, [eval] is
    applied to the value of every row, so a returned frame holds the
    evaluated value in each row and the loader returns only if every
    value is text that evaluates; when it is not text, no value is
    evaluated and the column is returned as stored, text in later rows
    included. *)
Theorem topics_decode_guard (eval : string -> result cell)
    (table : list QueryRow) :
  (table = [] -> load_sentiment_data eval table = Raise IndexError) /\
  (forall q rest, run_query table = q :: rest ->
     Forall (fun q => ns_min <= q_publishedAt q * 1000 <= ns_max) (run_query table) ->
     match q_topics q with
     | CStr _ =>
         (forall df, load_sentiment_data eval table = Ok df ->
            Forall2 (fun q r => exists s, q_topics q = CStr s /\
                                          eval s = Ok (topics r))
              (run_query table) df) /\
         ((exists df, load_sentiment_data eval table = Ok df) <->
          Forall (fun q => exists s v, q_topics q = CStr s /\ eval s = Ok v)
            (run_query table))
     | CList _ =>
         exists df, load_sentiment_data eval table = Ok df /\
                    map topics df = map q_topics (run_query table)
     end).
Proof.
  split.
  - intros ->; reflexivity.
  - intros q rest Eq Hb.
    rewrite load_cases, (derive_in_bounds _ Hb).
    clear Hb; rewrite Eq; cbn [bind map topics with_time_fields].
    destruct (q_topics q) as [s0|l0] eqn:E0.
    + change (with_time_fields q (q_publishedAt q * 1000)
              :: map (fun q => with_time_fields q (q_publishedAt q * 1000)) rest)
        with (map (fun q => with_time_fields q (q_publishedAt q * 1000)) (q :: rest)).
      split; [intros df; apply decode_rows_spec | apply decode_rows_return].
    + eexists; split; [reflexivity|].
      simpl; rewrite map_map, ?E0; reflexivity.
Qed.

Lemma topics_decode_guard_witness :
  (run_query Sample.table =
     Sample.q_ahead :: [Sample.q_recent; Sample.q_untagged; Sample.q_old] /\
   exists df, load_sentiment_data Sample.eval Sample.table = Ok df) /\
  (run_query Sample.mixed_table = Sample.q_listed :: [Sample.q_untagged] /\
   exists df, load_sentiment_data Sample.eval Sample.mixed_table = Ok df /\
              map topics df = [CList ["ai"; "cloud"]; CStr "[]"]).
Proof.
  split.
  - assert (Hq : run_query Sample.table =
                 Sample.q_ahead :: [Sample.q_recent; Sample.q_untagged; Sample.q_old])
      by (vm_compute; reflexivity).
    assert (Hb : Forall (fun q => ns_min <= q_publishedAt q * 1000 <= ns_max)
                   (run_query Sample.table))
      by (rewrite Hq; repeat constructor; vm_compute; discriminate).
    split; [exact Hq|].
    pose proof (proj2 (topics_decode_guard Sample.eval Sample.table) _ _ Hq Hb) as H.
    simpl in H; apply (proj2 H).
    rewrite Hq; repeat constructor; eexists; eexists; split; reflexivity.
  - assert (Hq : run_query Sample.mixed_table = Sample.q_listed :: [Sample.q_untagged])
      by (vm_compute; reflexivity).
    assert (Hb : Forall (fun q => ns_min <= q_publishedAt q * 1000 <= ns_max)
                   (run_query Sample.mixed_table))
      by (rewrite Hq; repeat constructor; vm_compute; discriminate).
    split; [exact Hq|].
    exact (proj2 (topics_decode_guard Sample.eval Sample.mixed_table) _ _ Hq Hb).
Defined.

(** The stored text decides which exception a failed decode raises. *)
Example load_stops_on_text_that_does_not_evaluate :
  load_sentiment_data Sample.eval
    [Sample.q_recent; Sample.mk 1761379200000000 "recall" "negative" (CStr "[ai") "wire"]
  = Raise SyntaxError /\
  load_sentiment_data Sample.eval
    [Sample.q_recent; Sample.mk 1761379200000000 "recall" "negative" (CStr "[][0]") "wire"]
  = Raise IndexError.
Proof. split; vm_compute; reflexivity. Qed.

Example load_stops_on_list_after_text :
  load_sentiment_data Sample.eval [Sample.q_ahead; Sample.q_listed] = Raise TypeError.
Proof. vm_compute. reflexivity. Qed.

Example load_stops_on_time_out_of_range :
  load_sentiment_data Sample.eval
    [Sample.q_recent; Sample.mk 9223372036854776 "far" "neutral" (CStr "[]") "wire"]
  = Raise OutOfBoundsDatetime.
Proof. vm_compute. reflexivity. Qed.


(** * Further properties of the script *)

(** ** The rows of a table of counts *)

Section RowFacts.
Context {K : Type} `{LabelEq K}.

Lemma label_eqb_refl (k : K) : label_eqb k k = true.
Proof. apply label_eqb_eq; reflexivity. Qed.

Lemma label_eqb_neq (a b : K) : a <> b -> label_eqb a b = false.
Proof.
  intros Hne; destruct (label_eqb a b) eqn:E; [|reflexivity].
  apply label_eqb_eq in E; contradiction.
Qed.

Lemma bump_labels_in (x k : K) (acc : list (K * nat)) :
  In x (map fst (Pandas.bump k acc)) <-> x = k \/ In x (map fst acc).
Proof.
  rewrite bump_labels.
  destruct (existsb (label_eqb k) (map fst acc)) eqn:E.
  - apply existsb_exists in E; destruct E as (y & Hy & Ey).
    apply label_eqb_eq in Ey; subst y.
    split; [auto | intros [->|Hx]; assumption].
  - rewrite in_app_iff; simpl; split.
    + intros [Hx|[<-|[]]]; auto.
    + intros [->|Hx]; auto.
Qed.

Lemma tally_labels (x : K) (keys : list K) :
  In x (map fst (Pandas.tally keys)) <-> In x keys.
Proof.
  unfold Pandas.tally.
  assert (Hacc : forall acc : list (K * nat),
            In x (map fst (fold_left (fun a k => Pandas.bump k a) keys acc)) <->
            In x keys \/ In x (map fst acc)).
  { induction keys as [|k keys IH]; intros acc; simpl.
    - tauto.
    - rewrite IH, bump_labels_in; intuition. }
  rewrite Hacc; simpl; tauto.
Qed.

Lemma count_of_absent (k : K) (t : list (K * nat)) :
  ~ In k (map fst t) -> Pandas.count_of k t = 0%nat.
Proof.
  unfold Pandas.count_of, Pandas.rows_where.
  induction t as [|[k' n'] t IH]; simpl; intros Hk; [reflexivity|].
  rewrite label_eqb_neq by (intros ->; apply Hk; left; reflexivity).
  apply IH; intros Hin; apply Hk; right; exact Hin.
Qed.

(** In a table with one row per label, the count of a label is the count
    in its row. *)
Lemma count_of_row (k : K) (n : nat) (t : list (K * nat)) :
  NoDup (map fst t) -> In (k, n) t -> Pandas.count_of k t = n.
Proof.
  induction t as [|[k' n'] t IH]; simpl; intros Hnd Hin; [contradiction|].
  inversion Hnd as [|? ? Hk' Hnd']; subst.
  destruct Hin as [E|Hin].
  - injection E as -> ->.
    pose proof (count_of_absent k t Hk') as Habs.
    unfold Pandas.count_of, Pandas.rows_where in *; simpl.
    rewrite label_eqb_refl; simpl; rewrite Habs; lia.
  - assert (Hne : k <> k').
    { intros ->; apply Hk'.
      change k' with (fst (k', n)); apply in_map; exact Hin. }
    specialize (IH Hnd' Hin).
    unfold Pandas.count_of, Pandas.rows_where in *; simpl.
    rewrite (label_eqb_neq _ _ Hne); exact IH.
Qed.

Lemma occurrences_pos (k : K) (keys : list K) :
  In k keys <-> (0 < length (filter (label_eqb k) keys))%nat.
Proof.
  induction keys as [|x keys IH]; simpl; [split; [tauto | lia]|].
  destruct (label_eqb k x) eqn:E; simpl.
  - apply label_eqb_eq in E; subst; split; [lia | auto].
  - rewrite <- IH; split; [intros [->|Hk]; [|exact Hk] | auto].
    rewrite label_eqb_refl in E; discriminate.
Qed.

(** The rows of [tally]: one per label that occurs, holding the number
    of its occurrences. *)
Lemma tally_rows (k : K) (n : nat) (keys : list K) :
  In (k, n) (Pandas.tally keys) <->
  n = length (filter (label_eqb k) keys) /\ (0 < n)%nat.
Proof.
  pose proof (total_tally_where (label_eqb k) keys) as Hc.
  fold (Pandas.count_of k (Pandas.tally keys)) in Hc.
  split.
  - intros Hin.
    rewrite <- Hc, (count_of_row k n _ (tally_NoDup keys) Hin).
    split; [reflexivity|].
    rewrite <- (count_of_row k n _ (tally_NoDup keys) Hin), Hc.
    apply occurrences_pos, tally_labels.
    change k with (fst (k, n)); apply in_map; exact Hin.
  - intros [-> Hpos].
    apply occurrences_pos, tally_labels, in_map_iff in Hpos.
    destruct Hpos as ([k' n'] & E & Hin); simpl in E; subst k'.
    rewrite <- Hc, (count_of_row k n' _ (tally_NoDup keys) Hin).
    exact Hin.
Qed.

Lemma value_counts_rows (k : K) (n : nat) (col : list (option K)) :
  In (k, n) (Pandas.value_counts col) <->
  n = length (filter (label_eqb k) (Pandas.dropna col)) /\ (0 < n)%nat.
Proof.
  rewrite <- tally_rows; unfold Pandas.value_counts; split; intros Hin.
  - eapply Permutation_in; [apply Permutation_sym, sort_by_perm | exact Hin].
  - eapply Permutation_in; [apply sort_by_perm | exact Hin].
Qed.

Lemma groupby_size_rows (k : K) (n : nat) (keys : list K) :
  In (k, n) (Pandas.groupby_size keys) <->
  n = length (filter (label_eqb k) keys) /\ (0 < n)%nat.
Proof.
  rewrite <- tally_rows; unfold Pandas.groupby_size; split; intros Hin.
  - eapply Permutation_in; [apply Permutation_sym, sort_by_perm | exact Hin].
  - eapply Permutation_in; [apply sort_by_perm | exact Hin].
Qed.

End RowFacts.

(** ** What each aggregate holds *)

Lemma groupby_size_labels {K : Type} `{LabelEq K} (k : K) (keys : list K) :
  In k (map fst (Pandas.groupby_size keys)) <-> In k keys.
Proof.
  rewrite <- (tally_labels k keys); unfold Pandas.groupby_size; split; intros Hin.
  - eapply Permutation_in; [|exact Hin].
    apply Permutation_map, Permutation_sym, sort_by_perm.
  - eapply Permutation_in; [|exact Hin].
    apply Permutation_map, sort_by_perm.
Qed.

Lemma filter_length_ext {A : Type} (p q : A -> bool) (l : list A) :
  (forall x, p x = q x) -> length (filter p l) = length (filter q l).
Proof. intros E; rewrite (filter_ext p q E); reflexivity. Qed.

(** The rows of a [groupby(...).size()] over the keys [f r]; [q] tests
    a record for the key [k]. *)
Lemma groupby_rows_of {K : Type} `{LabelEq K} (f : Row -> K) (q : Row -> bool)
    (df : DataFrame) (k : K) (n : nat) :
  (forall r, label_eqb k (f r) = q r) ->
  In (k, n) (Pandas.groupby_size (map f df)) <->
  n = length (filter q df) /\ (0 < n)%nat.
Proof.
  intros Hq.
  rewrite groupby_size_rows, length_filter_map.
  rewrite (filter_length_ext _ q); [reflexivity | exact Hq].
Qed.

(** X1.  The sentiment distribution has one row per label; a label has a row
    exactly when some record carries it, and the row holds the number of
    records that do. *)
Theorem sentiment_counts_rows (df : DataFrame) :
  NoDup (map fst (sentiment_counts df)) /\
  forall s n,
    In (s, n) (sentiment_counts df) <->
    n = length (with_sentiment s df) /\ (0 < n)%nat.
Proof.
  split; [apply value_counts_NoDup|].
  intros s n; unfold sentiment_counts, with_sentiment.
  rewrite value_counts_rows, dropna_map_Some, length_filter_map.
  rewrite (filter_length_ext _ (fun r => (sentiment r =? s)%string));
    [reflexivity|].
  intros r; apply String.eqb_sym.
Qed.

(** X2.  The topic counts have one row per topic; a topic has a row exactly
    when it occurs in some record, and the row holds the number of
    (record, topic) pairs with that topic. *)
Theorem topic_counts_rows (df : DataFrame) :
  NoDup (map fst (topic_counts df)) /\
  forall t n,
    In (t, n) (topic_counts df) <->
    n = length (filter (fun p => (snd p =? t)%string) (record_topic_pairs df)) /\
    (0 < n)%nat.
Proof.
  split; [apply value_counts_NoDup|].
  intros t n; unfold topic_counts.
  rewrite value_counts_rows, dropna_explode, length_filter_map.
  rewrite (filter_length_ext _ (fun p : Row * string => (snd p =? t)%string));
    [reflexivity|].
  intros p; apply String.eqb_sym.
Qed.

(** X3.  The three grouped aggregates have one row per observed pair of keys,
    holding the number of records with that pair. *)
Theorem grouped_counts_rows (df : DataFrame) :
  (NoDup (map fst (sentiment_trend df)) /\
   forall d s n,
     In ((d, s), n) (sentiment_trend df) <->
     n = length (filter (fun r => (date r =? d) && (sentiment r =? s)%string) df) /\
     (0 < n)%nat) /\
  (NoDup (map fst (source_sentiment df)) /\
   forall src s n,
     In ((src, s), n) (source_sentiment df) <->
     n = length (filter (fun r => (source r =? src)%string &&
                                  (sentiment r =? s)%string) df) /\
     (0 < n)%nat) /\
  (NoDup (map fst (hourly_sentiment df)) /\
   forall h s n,
     In ((h, s), n) (hourly_sentiment df) <->
     n = length (filter (fun r => (hour r =? h) && (sentiment r =? s)%string) df) /\
     (0 < n)%nat).
Proof.
  split; [|split]; (split; [apply groupby_size_NoDup|]).
  - intros d s n.
    apply (groupby_rows_of (fun r => (date r, sentiment r))).
    intros r; simpl; rewrite Z.eqb_sym, String.eqb_sym; reflexivity.
  - intros src s n.
    apply (groupby_rows_of (fun r => (source r, sentiment r))).
    intros r; simpl; rewrite (String.eqb_sym src), (String.eqb_sym s); reflexivity.
  - intros h s n.
    apply (groupby_rows_of (fun r => (hour r, sentiment r))).
    intros r; simpl; rewrite Z.eqb_sym, String.eqb_sym; reflexivity.
Qed.

(** ** The order of the rows *)

Lemma ascii_compare_refl (a : ascii) : Ascii.compare a a = Eq.
Proof. apply N.compare_refl. Qed.

Lemma ascii_compare_lt_trans (a b c : ascii) :
  Ascii.compare a b = Lt -> Ascii.compare b c = Lt -> Ascii.compare a c = Lt.
Proof. unfold Ascii.compare; rewrite !N.compare_lt_iff; lia. Qed.

Lemma string_compare_lt_trans (s t u : string) :
  String.compare s t = Lt -> String.compare t u = Lt -> String.compare s u = Lt.
Proof.
  revert t u; induction s as [|a s IH]; intros [|b t] [|c u]; simpl;
    try discriminate; try reflexivity.
  destruct (Ascii.compare a b) eqn:Eab; try discriminate.
  - apply Ascii.compare_eq_iff in Eab; subst b.
    destruct (Ascii.compare a c); try discriminate; [apply IH | reflexivity].
  - intros _.
    destruct (Ascii.compare b c) eqn:Ebc; try discriminate.
    + apply Ascii.compare_eq_iff in Ebc; subst c; rewrite Eab; reflexivity.
    + rewrite (ascii_compare_lt_trans _ _ _ Eab Ebc); reflexivity.
Qed.

Lemma string_leb_trans (s t u : string) :
  String.leb s t = true -> String.leb t u = true -> String.leb s u = true.
Proof.
  unfold String.leb.
  destruct (String.compare s t) eqn:Est; try discriminate;
    destruct (String.compare t u) eqn:Etu; try discriminate; intros _ _.
  - apply String.compare_eq_iff in Est, Etu; subst.
    destruct (String.compare u u) eqn:E; try reflexivity.
    pose proof (String.compare_antisym u u) as A.
    rewrite E in A; simpl in A; discriminate A.
  - apply String.compare_eq_iff in Est; subst; rewrite Etu; reflexivity.
  - apply String.compare_eq_iff in Etu; subst; rewrite Est; reflexivity.
  - rewrite (string_compare_lt_trans _ _ _ Est Etu); reflexivity.
Qed.

#[export] Instance string_LabelOrd : LabelOrd string.
Proof.
  split.
  - exact String.leb_total.
  - exact string_leb_trans.
  - exact String.leb_antisym.
Qed.

#[export] Instance Z_LabelOrd : LabelOrd Z.
Proof.
  split; simpl.
  - intros a b.
    destruct (Z.leb_spec a b); [left; reflexivity | right; apply Z.leb_le; lia].
  - intros a b c Hab Hbc; apply Z.leb_le; apply Z.leb_le in Hab, Hbc; lia.
  - intros a b Hab Hba; apply Z.leb_le in Hab, Hba; lia.
Qed.

#[export] Instance pair_LabelOrd {A B : Type}
    `{LabelEq A} `{LabelEq B} `{!LabelOrd A} `{!LabelOrd B} : LabelOrd (A * B).
Proof.
  split.
  - intros [a b] [a' b']; simpl.
    destruct (label_eqb a a') eqn:E.
    + apply label_eqb_eq in E; subst a'; rewrite label_eqb_refl.
      apply label_leb_total.
    + rewrite (label_eqb_neq a' a)
        by (intros ->; rewrite label_eqb_refl in E; discriminate).
      apply label_leb_total.
  - intros [a b] [a' b'] [a'' b'']; simpl.
    destruct (label_eqb a a') eqn:E1; destruct (label_eqb a' a'') eqn:E2;
      try (apply label_eqb_eq in E1; subst a');
      try (apply label_eqb_eq in E2; subst a'').
    + rewrite label_eqb_refl; apply label_leb_trans.
    + rewrite E2; auto.
    + rewrite E1; auto.
    + intros Hx Hy.
      destruct (label_eqb a a'') eqn:E3.
      * apply label_eqb_eq in E3; subst a''.
        rewrite (label_leb_antisym _ _ Hx Hy), label_eqb_refl in E1; discriminate.
      * eapply label_leb_trans; eassumption.
  - intros [a b] [a' b']; simpl.
    destruct (label_eqb a a') eqn:E.
    + apply label_eqb_eq in E; subst a'; rewrite label_eqb_refl.
      intros Hx Hy; f_equal; apply label_leb_antisym; assumption.
    + rewrite (label_eqb_neq a' a)
        by (intros ->; rewrite label_eqb_refl in E; discriminate).
      intros Hx Hy; rewrite (label_leb_antisym _ _ Hx Hy), label_eqb_refl in E.
      discriminate.
Qed.

Lemma value_counts_sorted {K : Type} `{Label K} (col : list (option K)) :
  StronglySorted (fun a b => (snd b <= snd a)%nat) (Pandas.value_counts col).
Proof.
  unfold Pandas.value_counts.
  eapply StronglySorted_impl; [|apply sort_by_sorted].
  - intros a b Hab; apply Nat.leb_le; exact Hab.
  - intros a b; destruct (Nat.leb_spec (snd b) (snd a));
      [left; reflexivity | right; apply Nat.leb_le; lia].
  - intros a b c Hab Hbc; apply Nat.leb_le in Hab, Hbc; apply Nat.leb_le; lia.
Qed.

Lemma groupby_size_sorted {K : Type} `{LabelOrd K} (keys : list K) :
  StronglySorted (fun a b => label_leb (fst a) (fst b) = true)
    (Pandas.groupby_size keys).
Proof.
  unfold Pandas.groupby_size.
  apply (sort_by_sorted (fun a b : K * nat => label_leb (fst a) (fst b))).
  - intros a b; apply label_leb_total.
  - intros a b c; apply label_leb_trans.
Qed.

(** X4.  The sentiment distribution and the topic counts list their rows from
    the most frequent label to the least frequent. *)
Theorem value_counts_most_frequent_first (df : DataFrame) :
  StronglySorted (fun a b => (snd b <= snd a)%nat) (sentiment_counts df) /\
  StronglySorted (fun a b => (snd b <= snd a)%nat) (topic_counts df).
Proof. split; apply value_counts_sorted. Qed.

(** X5.  The grouped aggregates list their rows in increasing key order, the
    second key deciding between rows with the same first key; so the daily
    trend runs from the earliest date to the latest. *)
Theorem grouped_counts_key_order (df : DataFrame) :
  StronglySorted (fun a b => label_leb (fst a) (fst b) = true) (sentiment_trend df) /\
  StronglySorted (fun a b => label_leb (fst a) (fst b) = true) (source_sentiment df) /\
  StronglySorted (fun a b => label_leb (fst a) (fst b) = true) (hourly_sentiment df) /\
  StronglySorted (fun a b => fst (fst a) <= fst (fst b)) (sentiment_trend df).
Proof.
  repeat split; try apply groupby_size_sorted.
  eapply StronglySorted_impl; [|apply (groupby_size_sorted (K := Z * string))].
  intros [[d s] n] [[d' s'] n']; simpl.
  destruct (Z.eqb_spec d d'); [lia | intros Hle; apply Z.leb_le in Hle; lia].
Qed.

(** ** How the aggregates agree with each other *)

Lemma count_of_sentiment (df : DataFrame) (s : string) :
  Pandas.count_of s (sentiment_counts df) = length (with_sentiment s df).
Proof.
  unfold Pandas.count_of, sentiment_counts, with_sentiment.
  rewrite total_value_counts_where, dropna_map_Some, length_filter_map.
  apply filter_length_ext; intros r; apply String.eqb_sym.
Qed.

Lemma groupby_total_where {K : Type} `{LabelEq K} (f : Row -> K) (p : K -> bool)
    (df : DataFrame) :
  Pandas.total (Pandas.rows_where p (Pandas.groupby_size (map f df))) =
  length (filter (fun r => p (f r)) df).
Proof. rewrite total_groupby_size_where; apply length_filter_map. Qed.

(** X6.  Summed over dates, over sources or over hours, the counts of a
    sentiment label in the three grouped aggregates all equal its count in
    the sentiment distribution: the number of records with that label. *)
Theorem grouped_counts_per_sentiment (df : DataFrame) (s : string) :
  Pandas.total (Pandas.rows_where (fun k => (snd k =? s)%string)
                  (sentiment_trend df)) =
    Pandas.count_of s (sentiment_counts df) /\
  Pandas.total (Pandas.rows_where (fun k => (snd k =? s)%string)
                  (source_sentiment df)) =
    Pandas.count_of s (sentiment_counts df) /\
  Pandas.total (Pandas.rows_where (fun k => (snd k =? s)%string)
                  (hourly_sentiment df)) =
    Pandas.count_of s (sentiment_counts df) /\
  Pandas.count_of s (sentiment_counts df) = length (with_sentiment s df).
Proof.
  rewrite count_of_sentiment.
  unfold sentiment_trend, source_sentiment, hourly_sentiment.
  rewrite !groupby_total_where.
  repeat split.
Qed.

(** X7.  The counts of the source breakdown add up, for a source, to the
    number of records from it; those of the hourly breakdown, for an hour,
    to the number of records published in it; and each of the three
    grouped aggregates adds up to the number of records. *)
Theorem grouped_counts_totals (df : DataFrame) :
  (forall src,
     Pandas.total (Pandas.rows_where (fun k => (fst k =? src)%string)
                     (source_sentiment df)) =
     length (filter (fun r => (source r =? src)%string) df)) /\
  (forall h,
     Pandas.total (Pandas.rows_where (fun k => fst k =? h) (hourly_sentiment df)) =
     length (filter (fun r => hour r =? h) df)) /\
  Pandas.total (sentiment_trend df) = length df /\
  Pandas.total (source_sentiment df) = length df /\
  Pandas.total (hourly_sentiment df) = length df.
Proof.
  unfold sentiment_trend, source_sentiment, hourly_sentiment.
  repeat split.
  - intros src; apply (groupby_total_where (fun r => (source r, sentiment r))
                         (fun k => (fst k =? src)%string)).
  - intros h; apply (groupby_total_where (fun r => (hour r, sentiment r))
                       (fun k => fst k =? h)).
  - rewrite <- (rows_where_all (Pandas.groupby_size _)), groupby_total_where,
      filter_all; reflexivity.
  - rewrite <- (rows_where_all (Pandas.groupby_size _)), groupby_total_where,
      filter_all; reflexivity.
  - rewrite <- (rows_where_all (Pandas.groupby_size _)), groupby_total_where,
      filter_all; reflexivity.
Qed.

Lemma explode_column (f : Row -> Row) (df : DataFrame) :
  (forall r, topics (f r) = topics r) ->
  map snd (explode (map f df)) = map snd (explode df).
Proof.
  intros Hf; unfold explode.
  induction df as [|r df IH]; simpl; [reflexivity|].
  rewrite !map_app, IH, !map_snd_pair, Hf; reflexivity.
Qed.

(** X8.  The reducers do not read the [title] column: the rewriting of line 71
    leaves every aggregate and the corpus as they were. *)
Theorem aggregates_ignore_title (df : DataFrame) :
  let df' := map (fun r => set_title r (markdown_link r)) df in
  aggregates_of df' = aggregates_of df /\ text_corpus df' = text_corpus df.
Proof.
  intros df'; subst df'.
  unfold aggregates_of, sentiment_counts, sentiment_trend, source_sentiment,
    hourly_sentiment, topic_counts, text_corpus.
  rewrite explode_column by reflexivity.
  rewrite !map_map.
  split; reflexivity.
Qed.

(** ** Dates, hours and the window *)

Lemma loaded_rows_derived (eval : string -> result cell) (table : list QueryRow)
    (df : DataFrame) (r : Row) :
  load_sentiment_data eval table = Ok df -> In r df ->
  exists q ts c, In q (run_query table) /\
                 r = set_topics (with_time_fields q ts) c.
Proof.
  intros Hload; apply load_rows in Hload.
  induction Hload as [|q r' qs rs (ts & c & _ & Hc) _ IH]; simpl; [contradiction|].
  intros [<-|Hr].
  - exists q, ts, c; auto.
  - destruct (IH Hr) as (q' & ts' & c' & Hq' & E); exists q', ts', c'; auto.
Qed.

(** X9.  In every row the loader returns, the hour lies between 0 and 23 and
    the timestamp falls in that hour of that calendar date, so the hourly
    breakdown of the retained records has no hour outside 0..23. *)
Theorem loaded_rows_time_fields (eval : string -> result cell)
    (table : list QueryRow) (df : DataFrame) :
  load_sentiment_data eval table = Ok df ->
  Forall (fun r =>
            0 <= hour r < 24 /\
            date r * day_ns + hour r * hour_ns <= publishedAt r
              < date r * day_ns + (hour r + 1) * hour_ns) df /\
  forall today h s n,
    In ((h, s), n) (hourly_sentiment (filter_stage today df)) -> 0 <= h < 24.
Proof.
  intros Hload.
  assert (Hrows : forall r, In r df ->
            0 <= hour r < 24 /\
            date r * day_ns + hour r * hour_ns <= publishedAt r
              < date r * day_ns + (hour r + 1) * hour_ns).
  { intros r Hr.
    destruct (loaded_rows_derived _ _ _ _ Hload Hr) as (q & ts & c & _ & ->).
    exact (time_fields_bracket q ts). }
  split; [apply Forall_forall; exact Hrows|].
  intros today h s n Hin.
  assert (Hk : In (h, s) (map fst (hourly_sentiment (filter_stage today df))))
    by (change (h, s) with (fst ((h, s), n)); apply in_map; exact Hin).
  unfold hourly_sentiment in Hk.
  apply (proj1 (groupby_size_labels _ _)), in_map_iff in Hk.
  destruct Hk as (r & E & Hr); injection E as <- _.
  apply filter_In in Hr; apply Hrows, Hr.
Qed.

Lemma loaded_rows_time_fields_witness :
  load_sentiment_data Sample.eval Sample.table =
    Ok [Sample.ahead; Sample.recent; Sample.untagged; Sample.old] /\
  In ((1, "positive"), 1%nat)
     (hourly_sentiment
        (filter_stage Sample.today
           [Sample.ahead; Sample.recent; Sample.untagged; Sample.old])) /\
  0 <= 1 < 24.
Proof.
  assert (Hload : load_sentiment_data Sample.eval Sample.table =
                  Ok [Sample.ahead; Sample.recent; Sample.untagged; Sample.old])
    by (vm_compute; reflexivity).
  assert (Hin : In ((1, "positive"), 1%nat)
                  (hourly_sentiment
                     (filter_stage Sample.today
                        [Sample.ahead; Sample.recent; Sample.untagged; Sample.old])))
    by (vm_compute; left; reflexivity).
  split; [exact Hload|].
  split; [exact Hin|].
  exact (proj2 (loaded_rows_time_fields _ _ _ Hload) Sample.today 1 "positive" 1%nat Hin).
Defined.

(** X10.  For the rows the loader returns, line 37 is a cut on the timestamp:
    a row is retained exactly when it was published at or after midnight
    (UTC) of the day [today - 7]. *)
Theorem filter_stage_cutoff (eval : string -> result cell)
    (table : list QueryRow) (df : DataFrame) (today : Z) (r : Row) :
  load_sentiment_data eval table = Ok df ->
  (In r (filter_stage today df) <->
   In r df /\ (today - 7) * day_ns <= publishedAt r).
Proof.
  intros Hload.
  unfold filter_stage, last_7_days; rewrite filter_In, Z.leb_le.
  split; intros [Hr Hle]; (split; [exact Hr|]);
    destruct (loaded_rows_derived _ _ _ _ Hload Hr) as (q & ts & c & _ & ->);
    simpl in *; unfold dt_date, day_ns in *.
  - pose proof (Z.mul_div_le ts 86400000000000 ltac:(lia)); lia.
  - apply Z.div_le_lower_bound; lia.
Qed.

Lemma filter_stage_cutoff_witness :
  load_sentiment_data Sample.eval Sample.table =
    Ok [Sample.ahead; Sample.recent; Sample.untagged; Sample.old] /\
  ~ In Sample.old
      (filter_stage Sample.today
         [Sample.ahead; Sample.recent; Sample.untagged; Sample.old]).
Proof.
  assert (Hload : load_sentiment_data Sample.eval Sample.table =
                  Ok [Sample.ahead; Sample.recent; Sample.untagged; Sample.old])
    by (vm_compute; reflexivity).
  split; [exact Hload|].
  intros Hin.
  apply (proj1 (filter_stage_cutoff _ _ _ Sample.today Sample.old Hload)) in Hin.
  destruct Hin as [_ Hle]; vm_compute in Hle; apply Hle; reflexivity.
Defined.

(** X11.  Filtering again on a later day gives what filtering the loaded frame
    on that day gives; in particular the filter is idempotent. *)
Theorem filter_stage_later_day (today later : Z) (df : DataFrame) :
  today <= later ->
  filter_stage later (filter_stage today df) = filter_stage later df.
Proof.
  intros Hle; unfold filter_stage, last_7_days.
  induction df as [|r df IH]; simpl; [reflexivity|].
  destruct (today - 7 <=? date r) eqn:E1; simpl; rewrite IH.
  - reflexivity.
  - destruct (later - 7 <=? date r) eqn:E2; [|reflexivity].
    apply Z.leb_le in E2; apply Z.leb_gt in E1; lia.
Qed.

Lemma filter_stage_later_day_witness :
  Sample.today <= Sample.today + 2 /\
  filter_stage (Sample.today + 2)
    (filter_stage Sample.today [Sample.ahead; Sample.untagged; Sample.old]) =
  filter_stage (Sample.today + 2) [Sample.ahead; Sample.untagged; Sample.old].
Proof.
  assert (Hle : Sample.today <= Sample.today + 2) by (unfold Sample.today; lia).
  split; [exact Hle|].
  exact (filter_stage_later_day _ _ _ Hle).
Defined.

(** ** The filter and the sort on a frame that is already newest first *)

Lemma StronglySorted_map_inv {A B : Type} (f : A -> B) (R : B -> B -> Prop)
    (l : list A) :
  StronglySorted R (map f l) -> StronglySorted (fun a b => R (f a) (f b)) l.
Proof.
  induction l as [|x l IH]; simpl; intros Hs; [constructor|].
  inversion Hs as [|? ? Hs' Hx]; subst.
  constructor; [apply IH; exact Hs'|].
  rewrite Forall_forall in *; intros y Hy; apply Hx, in_map, Hy.
Qed.

(** A filter that accepts everything ahead of an accepted element keeps
    a prefix. *)
Lemma filter_prefix {A : Type} (R : A -> A -> Prop) (p : A -> bool) (l : list A) :
  StronglySorted R l ->
  (forall a b, R a b -> p b = true -> p a = true) ->
  filter p l = firstn (length (filter p l)) l.
Proof.
  intros Hs Hp; induction Hs as [|x l Hs IH Hx]; simpl; [reflexivity|].
  destruct (p x) eqn:E; simpl.
  - f_equal; exact IH.
  - assert (Hnone : filter p l = []).
    { clear IH; induction l as [|y l IHl]; simpl; [reflexivity|].
      inversion Hx as [|? ? Hxy Hx']; inversion Hs; subst.
      destruct (p y) eqn:Ey.
      - rewrite (Hp _ _ Hxy Ey) in E; discriminate.
      - apply IHl; assumption. }
    rewrite Hnone; reflexivity.
Qed.

Lemma loaded_rows_dates (eval : string -> result cell) (table : list QueryRow)
    (df : DataFrame) :
  load_sentiment_data eval table = Ok df ->
  newest_first publishedAt df /\
  Forall (fun r => date r = dt_date (publishedAt r)) df.
Proof.
  intros Hload; split.
  - unfold newest_first.
    assert (Hts : map publishedAt df =
                  map (fun x => x * 1000) (map q_publishedAt (run_query table))).
    { apply load_rows in Hload; rewrite map_map.
      induction Hload as [|q r qs rs (ts & c & Hts & ->) _ IH]; simpl; [reflexivity|].
      apply to_datetime_ok in Hts; destruct Hts as [-> _].
      rewrite IH; reflexivity. }
    rewrite Hts; apply StronglySorted_map.
    eapply StronglySorted_impl; [|apply run_query_newest_first].
    intros a b Hab; simpl in *; lia.
  - apply Forall_forall; intros r Hr.
    destruct (loaded_rows_derived _ _ _ _ Hload Hr) as (q & ts & c & _ & ->).
    reflexivity.
Qed.

(** X12.  The loader returns its rows newest first, so what the filter retains
    is a prefix of the loaded frame: the rows it drops are the oldest ones,
    at the end. *)
Theorem filter_stage_keeps_prefix (eval : string -> result cell)
    (table : list QueryRow) (df : DataFrame) (today : Z) :
  load_sentiment_data eval table = Ok df ->
  filter_stage today df = firstn (length (filter_stage today df)) df /\
  newest_first publishedAt (filter_stage today df).
Proof.
  intros Hload.
  destruct (loaded_rows_dates _ _ _ Hload) as [Hnf Hd].
  assert (Hs : StronglySorted
                 (fun a b => publishedAt b <= publishedAt a /\
                             date a = dt_date (publishedAt a) /\
                             date b = dt_date (publishedAt b)) df).
  { apply StronglySorted_map_inv in Hnf.
    clear Hload; induction Hnf as [|x l Hs IH Hx]; [constructor|].
    inversion Hd as [|? ? Hdx Hdl]; subst.
    constructor; [apply IH; exact Hdl|].
    rewrite Forall_forall in *; intros y Hy; auto. }
  assert (Hpre : filter_stage today df = firstn (length (filter_stage today df)) df).
  { unfold filter_stage; eapply filter_prefix; [exact Hs|].
    intros a b (Hle & -> & ->) Hb.
    apply Z.leb_le in Hb; apply Z.leb_le.
    unfold dt_date in *.
    pose proof (Z.div_le_mono _ _ 86400000000000 ltac:(lia) Hle); lia. }
  split; [exact Hpre|].
  rewrite Hpre; unfold newest_first; rewrite <- firstn_map.
  apply StronglySorted_firstn; exact Hnf.
Qed.

Lemma filter_stage_keeps_prefix_witness :
  load_sentiment_data Sample.eval Sample.table =
    Ok [Sample.ahead; Sample.recent; Sample.untagged; Sample.old] /\
  filter_stage Sample.today
    [Sample.ahead; Sample.recent; Sample.untagged; Sample.old] =
  firstn 3 [Sample.ahead; Sample.recent; Sample.untagged; Sample.old].
Proof.
  assert (Hload : load_sentiment_data Sample.eval Sample.table =
                  Ok [Sample.ahead; Sample.recent; Sample.untagged; Sample.old])
    by (vm_compute; reflexivity).
  split; [exact Hload|].
  exact (proj1 (filter_stage_keeps_prefix _ _ _ Sample.today Hload)).
Defined.

Lemma headline_table_order (df : DataFrame) :
  Permutation (map t_publishedAt (data (headline_table (df_sorted df))))
    (map publishedAt df) /\
  StronglySorted (fun a b => b <= a)
    (map t_publishedAt (data (headline_table (df_sorted df)))).
Proof.
  unfold headline_table, df_sorted; simpl.
  rewrite map_map; simpl.
  split.
  - replace (map publishedAt df)
      with (map (fun x : Row * string => publishedAt (fst x)) (map display df))
      by (rewrite map_map; reflexivity).
    apply Permutation_map, Permutation_sym, sort_by_perm.
  - apply (sort_by_newest_first (fun x : Row * string => publishedAt (fst x))).
Qed.

(** Two lists of timestamps, each newest first, with the same elements
    are the same list. *)
Lemma newest_first_unique (l1 l2 : list Z) :
  StronglySorted (fun a b => b <= a) l1 ->
  StronglySorted (fun a b => b <= a) l2 ->
  Permutation l1 l2 -> l1 = l2.
Proof.
  intros H1; revert l2; induction H1 as [|a l1 Hs1 IH Ha]; intros l2 H2 Hp.
  - apply Permutation_nil in Hp; subst; reflexivity.
  - destruct l2 as [|b l2].
    { apply Permutation_sym, Permutation_nil in Hp; discriminate. }
    inversion H2 as [|? ? Hs2 Hb]; subst.
    assert (E : a = b).
    { assert (Hab : In a (b :: l2))
        by (eapply Permutation_in; [exact Hp | left; reflexivity]).
      assert (Hba : In b (a :: l1))
        by (eapply Permutation_in; [apply Permutation_sym, Hp | left; reflexivity]).
      rewrite Forall_forall in Ha, Hb.
      destruct Hab as [<-|Hab]; [reflexivity|].
      destruct Hba as [->|Hba]; [reflexivity|].
      pose proof (Ha _ Hba); pose proof (Hb _ Hab); lia. }
    subst b; f_equal; apply IH; [exact Hs2|].
    eapply Permutation_cons_inv; exact Hp.
Qed.

(** X13.  On a frame that is newest first already, the sort of line 73 changes
    nothing in the [publishedAt] column: the table lists the timestamps
    in the order of the frame. *)
Theorem df_sorted_keeps_newest_first (df : DataFrame) :
  newest_first publishedAt df ->
  map t_publishedAt (data (headline_table (df_sorted df))) = map publishedAt df.
Proof.
  intros Hnf.
  destruct (headline_table_order df) as [Hperm Hsorted].
  apply newest_first_unique; [exact Hsorted | exact Hnf | exact Hperm].
Qed.

Lemma df_sorted_keeps_newest_first_witness :
  newest_first publishedAt [Sample.ahead; Sample.recent; Sample.untagged] /\
  map t_publishedAt
    (data (headline_table (df_sorted [Sample.ahead; Sample.recent; Sample.untagged]))) =
  map publishedAt [Sample.ahead; Sample.recent; Sample.untagged].
Proof.
  assert (Hnf : newest_first publishedAt [Sample.ahead; Sample.recent; Sample.untagged]).
  { unfold newest_first; simpl.
    repeat (constructor; [|repeat constructor; vm_compute; discriminate]).
    constructor. }
  split; [exact Hnf|].
  exact (df_sorted_keeps_newest_first _ Hnf).
Defined.

(** ** Pages *)

(** X14.  Row [i] of the table is shown on page [i / 10], at position
    [i mod 10]; the pages from [page_count] on are empty. *)
Theorem headline_table_page_of_row (df : DataFrame) :
  let t := headline_table (df_sorted df) in
  (forall i, nth_error (page t (i / 10)) (i mod 10) = nth_error (data t) i) /\
  (forall j, (page_count t <= j)%nat -> page t j = []) /\
  page_count t = ((length df + 9) / 10)%nat.
Proof.
  intros t.
  assert (Hlen : length (data t) = length df).
  { unfold t, headline_table, df_sorted; simpl.
    rewrite length_map, sort_by_length, length_map; reflexivity. }
  assert (Hsize : page_size t = 10%nat) by reflexivity.
  split; [|split].
  - intros i; unfold page; rewrite Hsize.
    rewrite nth_error_firstn, nth_error_skipn.
    pose proof (Nat.mod_upper_bound i 10 ltac:(lia)) as Hm.
    destruct (Nat.ltb_spec (i mod 10) 10); [|lia].
    f_equal; pose proof (Nat.div_mod_eq i 10); lia.
  - intros j Hj; unfold page.
    rewrite skipn_all2; [apply firstn_nil|].
    pose proof (page_count_covers t ltac:(rewrite Hsize; lia)) as Hc.
    rewrite Hsize in *; nia.
  - unfold page_count; rewrite Hsize, Hlen.
    f_equal; lia.
Qed.

(** ** The exploded frame *)

(** X15.  [explode] keeps every record: a record with topics has one row per
    topic, a record without has one row with a missing value. *)
Theorem explode_rows (df : DataFrame) :
  length (explode df) =
    (length (record_topic_pairs df) + length (filter no_labels df))%nat /\
  (forall r, In r df -> In r (map fst (explode df))) /\
  (forall r v, In (r, v) (explode df) -> In r df).
Proof.
  unfold explode, record_topic_pairs.
  split; [|split].
  - induction df as [|r df IH]; simpl; [reflexivity|].
    rewrite !length_app, !length_map, IH.
    unfold no_labels.
    destruct (topics r) as [s|[|x l]]; simpl; rewrite ?length_map; lia.
  - intros r Hr; apply in_map_iff.
    destruct (explode_cell (topics r)) as [|v vs] eqn:E.
    { destruct (topics r) as [s|[|x l]]; discriminate. }
    exists (r, v); split; [reflexivity|].
    apply in_flat_map; exists r; split; [exact Hr|].
    rewrite E; left; reflexivity.
  - intros r v Hin; apply in_flat_map in Hin.
    destruct Hin as (r' & Hr' & Hin); apply in_map_iff in Hin.
    destruct Hin as (v' & E & _); injection E as -> _; exact Hr'.
Qed.

(** ** The corpus *)

Lemma string_app_assoc (a b c : string) : ((a ++ b) ++ c = a ++ (b ++ c))%string.
Proof. induction a as [|x a IH]; simpl; [reflexivity | rewrite IH; reflexivity]. Qed.

Lemma string_app_empty (a : string) : (a ++ "" = a)%string.
Proof. induction a as [|x a IH]; simpl; [reflexivity | rewrite IH; reflexivity]. Qed.

Lemma concat_app_cons (sep x : string) (l1 l2 : list string) :
  String.concat sep (l1 ++ x :: l2) =
  ((match l1 with [] => "" | _ :: _ => String.concat sep l1 ++ sep end) ++
   x ++
   (match l2 with [] => "" | _ :: _ => sep ++ String.concat sep l2 end))%string.
Proof.
  induction l1 as [|y l1 IH].
  - destruct l2; simpl; [rewrite string_app_empty|]; reflexivity.
  - change ((y :: l1) ++ x :: l2) with (y :: (l1 ++ x :: l2)).
    destruct l1 as [|z l1].
    + change (String.concat sep (y :: [] ++ x :: l2))
        with (y ++ sep ++ String.concat sep ([] ++ x :: l2))%string.
      rewrite IH.
      change (String.concat sep [y]) with y.
      rewrite !string_app_assoc; reflexivity.
    + change (String.concat sep (y :: (z :: l1) ++ x :: l2))
        with (y ++ sep ++ String.concat sep ((z :: l1) ++ x :: l2))%string.
      rewrite IH.
      change (String.concat sep (y :: z :: l1))
        with (y ++ sep ++ String.concat sep (z :: l1))%string.
      rewrite !string_app_assoc; reflexivity.
Qed.

(** X16.  The corpus holds the text of every record whole, in row order, with
    one space between the texts of neighbouring records and none at
    either end. *)
Theorem text_corpus_parts (before after : DataFrame) (r : Row) :
  text_corpus (before ++ r :: after) =
  ((match before with [] => "" | _ :: _ => text_corpus before ++ " " end) ++
   text r ++
   (match after with [] => "" | _ :: _ => " " ++ text_corpus after end))%string.
Proof.
  unfold text_corpus; rewrite map_app; simpl map.
  rewrite concat_app_cons.
  destruct before, after; reflexivity.
Qed.

(** ** More on the loader *)

Lemma StronglySorted_app_cross {A : Type} (R : A -> A -> Prop) (l1 l2 : list A) :
  StronglySorted R (l1 ++ l2) ->
  forall a b, In a l1 -> In b l2 -> R a b.
Proof.
  induction l1 as [|x l1 IH]; simpl; intros Hs a b Ha Hb; [contradiction|].
  inversion Hs as [|? ? Hs' Hx]; subst.
  destruct Ha as [<-|Ha].
  - rewrite Forall_forall in Hx; apply Hx, in_or_app; right; exact Hb.
  - apply IH; assumption.
Qed.

(** X17.  The query returns the most recent rows: the stored rows are the
    returned ones and a remainder that holds no row more recent than a
    returned one, and that is empty when the table has at most 200 rows. *)
Theorem run_query_most_recent (table : list QueryRow) :
  exists rest,
    Permutation table (run_query table ++ rest) /\
    (forall q q', In q (run_query table) -> In q' rest ->
                  q_publishedAt q' <= q_publishedAt q) /\
    ((length table <= 200)%nat -> rest = []).
Proof.
  unfold run_query.
  set (sorted := Pandas.sort_by (fun a b => q_publishedAt b <=? q_publishedAt a) table).
  exists (skipn 200 sorted).
  split; [|split].
  - rewrite firstn_skipn; apply sort_by_perm.
  - intros q q' Hq Hq'.
    assert (Hs : StronglySorted (fun a b => q_publishedAt b <= q_publishedAt a)
                   (firstn 200 sorted ++ skipn 200 sorted)).
    { rewrite firstn_skipn.
      apply (StronglySorted_map_inv q_publishedAt (fun a b => b <= a)).
      apply (sort_by_newest_first q_publishedAt). }
    exact (StronglySorted_app_cross _ _ _ Hs q q' Hq Hq').
  - intros Hlen; apply skipn_all2.
    unfold sorted; rewrite sort_by_length; exact Hlen.
Qed.

(** X18.  The loader adds [date] and [hour] and may replace [topics]; the other
    columns of a returned row are those of the query row at its position,
    with [publishedAt] parsed. *)
Theorem load_keeps_columns (eval : string -> result cell)
    (table : list QueryRow) (df : DataFrame) :
  load_sentiment_data eval table = Ok df ->
  Forall2 (fun q r =>
             to_datetime (q_publishedAt q) = Ok (publishedAt r) /\
             title r = q_title q /\ sentiment r = q_sentiment q /\
             text r = q_text q /\ source r = q_source q /\ url r = q_url q)
    (run_query table) df.
Proof.
  intros Hload; apply load_rows in Hload.
  eapply Forall2_impl; [|exact Hload].
  intros q r (ts & c & Hts & ->); repeat split; exact Hts.
Qed.

Lemma load_keeps_columns_witness :
  load_sentiment_data Sample.eval Sample.mixed_table =
    Ok [Sample.row Sample.q_listed; Sample.row Sample.q_untagged] /\
  Forall2 (fun q r =>
             to_datetime (q_publishedAt q) = Ok (publishedAt r) /\
             title r = q_title q /\ sentiment r = q_sentiment q /\
             text r = q_text q /\ source r = q_source q /\ url r = q_url q)
    (run_query Sample.mixed_table)
    [Sample.row Sample.q_listed; Sample.row Sample.q_untagged].
Proof.
  assert (Hload : load_sentiment_data Sample.eval Sample.mixed_table =
                  Ok [Sample.row Sample.q_listed; Sample.row Sample.q_untagged])
    by (vm_compute; reflexivity).
  split; [exact Hload|].
  exact (load_keeps_columns _ _ _ Hload).
Defined.

Lemma Forall2_In_r {A B : Type} (R : A -> B -> Prop) (l : list A) (l' : list B)
    (y : B) :
  Forall2 R l l' -> In y l' -> exists x, In x l /\ R x y.
Proof.
  induction 1 as [|a b l l' Hab _ IH]; simpl; [contradiction|].
  intros [<-|Hy]; [exists a; auto|].
  destruct (IH Hy) as (x & Hx & Hxy); exists x; auto.
Qed.

(** X19.  Why the loader raises once the query has returned its rows:
    [OutOfBoundsDatetime] for a stored time outside the range of
    timestamps; else [IndexError] when there is no row; else the first
    returned row holds text and some returned row either holds text whose
    evaluation raises that very exception or holds a list, which raises
    [TypeError]. *)
Theorem load_failure_causes (eval : string -> result cell)
    (table : list QueryRow) (e : exn) :
  load_sentiment_data eval table = Raise e ->
  (e = OutOfBoundsDatetime /\
   exists q, In q (run_query table) /\
             ~ ns_min <= q_publishedAt q * 1000 <= ns_max) \/
  (e = IndexError /\ table = []) \/
  (exists q0 rest s0 q,
     run_query table = q0 :: rest /\ q_topics q0 = CStr s0 /\
     In q (run_query table) /\
     ((exists s, q_topics q = CStr s /\ eval s = Raise e) \/
      (e = TypeError /\ exists l, q_topics q = CList l))).
Proof.
  rewrite load_cases.
  remember (run_query table) as rq eqn:Eq.
  destruct (mapM derive rq) as [rows|e'] eqn:Ed; cbn [bind].
  - pose proof (derived_rows _ _ Ed) as Hrows.
    destruct Hrows as [|q0 r0 rest rows0 (ts0 & Ht0 & ->) Hrest].
    + intros E; injection E as <-; right; left; split; [reflexivity|].
      apply (proj1 (run_query_nil table)); auto.
    + cbn [topics with_time_fields].
      destruct (q_topics q0) as [s0|l0] eqn:E0; [|discriminate].
      intros Hm; apply mapM_raises in Hm; destruct Hm as (r & Hr & Hdec).
      assert (Hall : Forall2
                (fun q r => exists ts, to_datetime (q_publishedAt q) = Ok ts /\
                                       r = with_time_fields q ts)
                (q0 :: rest) (with_time_fields q0 ts0 :: rows0))
        by (constructor; eauto).
      destruct (Forall2_In_r _ _ _ _ Hall Hr) as (q & Hq & ts & _ & ->).
      right; right; exists q0, rest, s0, q.
      split; [reflexivity|]. split; [exact E0|]. split; [exact Hq|].
      unfold decode_row, apply_eval in Hdec; cbn [topics with_time_fields] in Hdec.
      destruct (q_topics q) as [s|l].
      * left; exists s; split; [reflexivity|].
        destruct (eval s); [discriminate | cbn [bind] in Hdec; injection Hdec as ->; reflexivity].
      * right; injection Hdec as <-; split; [reflexivity|]; exists l; reflexivity.
  - intros E; injection E as <-.
    apply mapM_raises in Ed; destruct Ed as (q & Hq & Hd).
    unfold derive in Hd.
    destruct (to_datetime (q_publishedAt q)) as [ts|e0] eqn:Et; [discriminate|].
    injection Hd as <-; apply to_datetime_raises in Et; destruct Et as [-> Hb].
    left; split; [reflexivity|]; exists q; auto.
Qed.

Lemma load_failure_causes_witness :
  load_sentiment_data Sample.eval
    [Sample.q_recent; Sample.mk 1761379200000000 "recall" "negative" (CStr "[][0]") "wire"]
  = Raise IndexError /\
  [Sample.q_recent; Sample.mk 1761379200000000 "recall" "negative" (CStr "[][0]") "wire"]
  <> [].
Proof.
  assert (Hload : load_sentiment_data Sample.eval
            [Sample.q_recent;
             Sample.mk 1761379200000000 "recall" "negative" (CStr "[][0]") "wire"]
          = Raise IndexError) by (vm_compute; reflexivity).
  split; [exact Hload|].
  destruct (load_failure_causes _ _ _ Hload) as [[E _]|[[_ E]|_]];
    discriminate.
Defined.

(** ** The script from end to end *)

(** The state the script ends in when the loader returned [df], the
    filter retained some of it and the word cloud was rendered. *)
Lemma app_returns (eval : string -> result cell)
    (render_cloud : string -> result string) (today : Z)
    (table : list QueryRow) (df : DataFrame) (lo hi : Z) (img : string) :
  load_sentiment_data eval table = Ok df ->
  Pandas.series_min (map date (filter_stage today df)) = Pandas.SDate lo ->
  Pandas.series_max (map date (filter_stage today df)) = Pandas.SDate hi ->
  render_cloud (text_corpus (filter_stage today df)) = Ok img ->
  app eval render_cloud today table =
  Ok {| g_df := map (fun r => set_title r (markdown_link r)) (filter_stage today df);
        g_date_from := Some (Calendar.format_date lo);
        g_date_to := Some (Calendar.format_date hi);
        g_sentiment_counts := Some (sentiment_counts (filter_stage today df));
        g_text := Some (text_corpus (filter_stage today df));
        g_img_base64 := Some img;
        g_sentiment_trend := Some (sentiment_trend (filter_stage today df));
        g_source_sentiment := Some (source_sentiment (filter_stage today df));
        g_hourly_sentiment := Some (hourly_sentiment (filter_stage today df));
        g_topic_counts := Some (topic_counts (filter_stage today df));
        g_df_sorted := Some (df_sorted (filter_stage today df));
        g_table := Some (headline_table (df_sorted (filter_stage today df))) |}.
Proof.
  intros Hload Hmin Hmax Himg.
  unfold app; rewrite Hload.
  cbv beta iota delta [bind filter_stmt loaded caption_stmt date_from date_to
    g_df g_date_from g_date_to g_sentiment_counts g_text g_img_base64
    g_sentiment_trend g_source_sentiment g_hourly_sentiment g_topic_counts
    g_df_sorted g_table].
  rewrite Hmin, Hmax.
  cbv beta iota delta [bind strftime sentiment_counts_stmt text_stmt wordcloud_stmt
    g_df g_date_from g_date_to g_sentiment_counts g_text g_img_base64
    g_sentiment_trend g_source_sentiment g_hourly_sentiment g_topic_counts
    g_df_sorted g_table].
  rewrite Himg.
  cbv beta iota delta [bind sentiment_trend_stmt source_sentiment_stmt
    hourly_sentiment_stmt topic_counts_stmt presentation_stmt
    g_df g_date_from g_date_to g_sentiment_counts g_text g_img_base64
    g_sentiment_trend g_source_sentiment g_hourly_sentiment g_topic_counts
    g_df_sorted g_table].
  reflexivity.
Qed.

(** The script stops with what the rendering raises. *)
Lemma app_raises_in_cloud (eval : string -> result cell)
    (render_cloud : string -> result string) (today : Z)
    (table : list QueryRow) (df : DataFrame) (e : exn) :
  load_sentiment_data eval table = Ok df ->
  filter_stage today df <> [] ->
  render_cloud (text_corpus (filter_stage today df)) = Raise e ->
  app eval render_cloud today table = Raise e.
Proof.
  intros Hload Hne Himg.
  destruct (series_extremes _ Hne) as (lo & hi & Hmin & Hmax & _).
  unfold app; rewrite Hload.
  cbv beta iota delta [bind filter_stmt loaded caption_stmt date_from date_to
    g_df g_date_from g_date_to g_sentiment_counts g_text g_img_base64
    g_sentiment_trend g_source_sentiment g_hourly_sentiment g_topic_counts
    g_df_sorted g_table].
  rewrite Hmin, Hmax.
  cbv beta iota delta [bind strftime sentiment_counts_stmt text_stmt wordcloud_stmt
    g_df g_date_from g_date_to g_sentiment_counts g_text g_img_base64
    g_sentiment_trend g_source_sentiment g_hourly_sentiment g_topic_counts
    g_df_sorted g_table].
  rewrite Himg; reflexivity.
Qed.


Lemma load_length_bound (eval : string -> result cell) (table : list QueryRow)
    (df : DataFrame) :
  load_sentiment_data eval table = Ok df -> (length df <= 200)%nat.
Proof.
  intros Hload; apply load_rows, Forall2_length in Hload.
  pose proof (run_query_length table); lia.
Qed.

(** X21.  What the script holds when it reaches the layout: the
    aggregates, the corpus and the picture are those of the retained
    records of the loaded frame (computed before line 71 rewrites the
    titles); the table shows each retained record once, latest first, ten
    to a page, on at most 200 rows and 20 pages; and the caption spans
    dates from [today - 7] on. *)
Theorem app_result (eval : string -> result cell)
    (render_cloud : string -> result string) (today : Z)
    (table : list QueryRow) (g : Globals) :
  app eval render_cloud today table = Ok g ->
  exists df lo hi img t,
    load_sentiment_data eval table = Ok df /\
    filter_stage today df <> [] /\
    g_df g = map (fun r => set_title r (markdown_link r)) (filter_stage today df) /\
    aggregates g = aggregates_of (filter_stage today df) /\
    g_text g = Some (text_corpus (filter_stage today df)) /\
    render_cloud (text_corpus (filter_stage today df)) = Ok img /\
    g_img_base64 g = Some img /\
    g_table g = Some t /\
    Permutation (map (fun r => to_record (display r)) (filter_stage today df))
      (data t) /\
    newest_first t_publishedAt (data t) /\
    page_size t = 10%nat /\
    g_date_from g = Some (Calendar.format_date lo) /\
    g_date_to g = Some (Calendar.format_date hi) /\
    today - 7 <= lo <= hi /\
    (length (data t) <= 200)%nat /\
    (page_count t <= 20)%nat.
Proof.
  intros Happ.
  destruct (load_sentiment_data eval table) as [df|e] eqn:Hload;
    [|unfold app in Happ; rewrite Hload in Happ; discriminate].
  assert (Hne : filter_stage today df <> []).
  { intros HF.
    rewrite (app_raises_on_empty_window _ _ _ _ _ Hload HF) in Happ; discriminate. }
  destruct (render_cloud (text_corpus (filter_stage today df))) as [img|e] eqn:Himg;
    [|rewrite (app_raises_in_cloud _ _ _ _ _ _ Hload Hne Himg) in Happ; discriminate].
  destruct (series_extremes _ Hne) as (lo & hi & Hmin & Hmax & Hlo & _ & Hall).
  rewrite (app_returns _ _ _ _ _ _ _ _ Hload Hmin Hmax Himg) in Happ.
  injection Happ as <-.
  exists df, lo, hi, img, (headline_table (df_sorted (filter_stage today df))).
  assert (Hlen : (length (filter_stage today df) <= 200)%nat).
  { pose proof (load_length_bound _ _ _ Hload).
    pose proof (filter_length_le (fun r => last_7_days today <=? date r) df).
    unfold filter_stage; lia. }
  assert (Hd : length (data (headline_table (df_sorted (filter_stage today df)))) =
               length (filter_stage today df)).
  { unfold headline_table, df_sorted; simpl.
    rewrite length_map, sort_by_length, length_map; reflexivity. }
  split; [reflexivity|]. split; [exact Hne|].
  split; [reflexivity|]. split; [reflexivity|]. split; [reflexivity|].
  split; [exact Himg|]. split; [reflexivity|]. split; [reflexivity|].
  split.
  { unfold headline_table, df_sorted; simpl.
    rewrite <- (map_map display to_record).
    apply Permutation_map, sort_by_perm. }
  split.
  { unfold headline_table, df_sorted, newest_first; simpl.
    rewrite map_map; simpl.
    apply (sort_by_newest_first (fun x : Row * string => publishedAt (fst x))). }
  split; [reflexivity|]. split; [reflexivity|]. split; [reflexivity|].
  split.
  { apply in_map_iff in Hlo; destruct Hlo as (r & <- & Hr).
    split; [|pose proof (Hall _ Hr); lia].
    unfold filter_stage, last_7_days in Hr.
    apply filter_In in Hr; destruct Hr as [_ Hr]; apply Z.leb_le in Hr; exact Hr. }
  split; [rewrite Hd; exact Hlen|].
  unfold page_count; rewrite Hd.
  change (page_size (headline_table (df_sorted (filter_stage today df))))
    with 10%nat.
  assert (Hlt : ((length (filter_stage today df) + 10 - 1) / 10 < 21)%nat)
    by (apply Nat.Div0.div_lt_upper_bound; lia).
  lia.
Qed.

Lemma app_result_witness :
  exists g,
    app Sample.eval Sample.render_cloud Sample.today Sample.table = Ok g /\
    exists df lo hi,
      load_sentiment_data Sample.eval Sample.table = Ok df /\
      aggregates g = aggregates_of (filter_stage Sample.today df) /\
      Sample.today - 7 <= lo <= hi.
Proof.
  destruct (app Sample.eval Sample.render_cloud Sample.today Sample.table)
    as [g|e] eqn:Happ.
  - exists g; split; [reflexivity|].
    destruct (app_result _ _ _ _ _ Happ)
      as (df & lo & hi & img & t & Hload & _ & _ & Hagg & _ & _ & _ & _ & _ & _ & _
          & _ & _ & Hwin & _).
    exists df, lo, hi; auto.
  - exfalso; vm_compute in Happ; discriminate.
Defined.

Example app_stops_in_word_cloud :
  app Sample.eval Sample.render_cloud Sample.today
    [Sample.mk 1762252200000000 "" "positive" (CStr "['ai']") "wire"]
  = Raise ValueError.
Proof. vm_compute. reflexivity. Qed.

(** ** The caption and the first and last retained rows *)

Lemma StronglySorted_filter {A : Type} (R : A -> A -> Prop) (p : A -> bool)
    (l : list A) :
  StronglySorted R l -> StronglySorted R (filter p l).
Proof.
  induction 1 as [|x l Hs IH Hx]; simpl; [constructor|].
  destruct (p x); [|exact IH].
  constructor; [exact IH|].
  rewrite Forall_forall in *; intros y Hy.
  apply filter_In in Hy; apply Hx, Hy.
Qed.

Lemma StronglySorted_last {A : Type} (R : A -> A -> Prop) (l : list A) (d x : A) :
  StronglySorted R l -> In x l -> x = last l d \/ R x (last l d).
Proof.
  induction 1 as [|y l Hs IH Hy]; intros Hx; [contradiction|].
  destruct l as [|z l].
  - destruct Hx as [<-|[]]; left; reflexivity.
  - change (last (y :: z :: l) d) with (last (z :: l) d).
    destruct Hx as [<-|Hx].
    + right; rewrite Forall_forall in Hy; apply Hy.
      destruct (exists_last (l := z :: l) ltac:(discriminate)) as (l' & a & E).
      rewrite E, last_last; apply in_or_app; right; left; reflexivity.
    + apply IH; exact Hx.
Qed.

(** The retained rows of a loaded frame, latest date first. *)
Lemma retained_dates_sorted (eval : string -> result cell) (table : list QueryRow)
    (df : DataFrame) (today : Z) :
  load_sentiment_data eval table = Ok df ->
  StronglySorted (fun a b => date b <= date a) (filter_stage today df).
Proof.
  intros Hload.
  destruct (loaded_rows_dates _ _ _ Hload) as [Hnf Hd].
  apply StronglySorted_filter.
  apply StronglySorted_map_inv in Hnf.
  clear Hload.
  induction Hnf as [|x l Hs IH Hx]; [constructor|].
  inversion Hd as [|? ? Hdx Hdl]; subst.
  constructor; [apply IH; exact Hdl|].
  rewrite Forall_forall in *; intros y Hy.
  rewrite Hdx, (Hdl y Hy); unfold dt_date.
  apply Z.div_le_mono; [lia | apply Hx, Hy].
Qed.

(** X22.  The caption of a loaded and filtered frame runs from the date of its
    last row to the date of its first row. *)
Theorem caption_spans_retained_rows (eval : string -> result cell)
    (table : list QueryRow) (df : DataFrame) (today : Z)
    (first : Row) (others : list Row) :
  load_sentiment_data eval table = Ok df ->
  filter_stage today df = first :: others ->
  date_to (filter_stage today df) = Ok (Calendar.format_date (date first)) /\
  date_from (filter_stage today df) =
    Ok (Calendar.format_date (date (last others first))).
Proof.
  intros Hload HF.
  pose proof (retained_dates_sorted _ _ _ today Hload) as Hs.
  assert (Hne : filter_stage today df <> []) by (rewrite HF; discriminate).
  destruct (series_extremes _ Hne) as (lo & hi & Hmin & Hmax & Hlo & Hhi & Hall).
  unfold date_from, date_to; rewrite Hmin, Hmax; simpl.
  rewrite HF in Hs, Hlo, Hhi, Hall.
  assert (Elast : last (first :: others) first = last others first)
    by (destruct others; reflexivity).
  split; do 2 f_equal.
  - apply in_map_iff in Hhi; destruct Hhi as (r & <- & Hr).
    pose proof (Hall first ltac:(left; reflexivity)) as Hf.
    inversion Hs as [|? ? _ Hfirst]; subst.
    destruct Hr as [<-|Hr]; [reflexivity|].
    rewrite Forall_forall in Hfirst; pose proof (Hfirst _ Hr); lia.
  - apply in_map_iff in Hlo; destruct Hlo as (r & <- & Hr).
    assert (Hl : In (last others first) (first :: others)).
    { rewrite <- Elast.
      destruct (exists_last (l := first :: others) ltac:(discriminate))
        as (l' & a & E).
      rewrite E, last_last; apply in_or_app; right; left; reflexivity. }
    pose proof (Hall _ Hl) as Hb.
    destruct (StronglySorted_last _ _ first r Hs Hr) as [->|Hle].
    + rewrite Elast; reflexivity.
    + rewrite Elast in Hle; lia.
Qed.

Lemma caption_spans_retained_rows_witness :
  load_sentiment_data Sample.eval Sample.table =
    Ok [Sample.ahead; Sample.recent; Sample.untagged; Sample.old] /\
  filter_stage Sample.today
    [Sample.ahead; Sample.recent; Sample.untagged; Sample.old] =
    Sample.ahead :: [Sample.recent; Sample.untagged] /\
  date_to (filter_stage Sample.today
             [Sample.ahead; Sample.recent; Sample.untagged; Sample.old]) =
    Ok (Calendar.format_date (date Sample.ahead)).
Proof.
  assert (Hload : load_sentiment_data Sample.eval Sample.table =
                  Ok [Sample.ahead; Sample.recent; Sample.untagged; Sample.old])
    by (vm_compute; reflexivity).
  assert (HF : filter_stage Sample.today
                 [Sample.ahead; Sample.recent; Sample.untagged; Sample.old] =
               Sample.ahead :: [Sample.recent; Sample.untagged])
    by (vm_compute; reflexivity).
  split; [exact Hload|].
  split; [exact HF|].
  exact (proj1 (caption_spans_retained_rows _ _ _ _ _ _ Hload HF)).
Defined.

(** ** The displayed topics of text that was not decoded *)

(** Text is joined character by character: a two-byte character (here
    U+00E9, bytes 195 169) stays whole. *)
Example join_topics_by_character :
  join_topics (CStr "[a]") = "[, a, ]" /\
  join_topics (CStr (String "195" (String "169" (String "097" EmptyString)))) =
    String "195" (String "169" (String "," (String " " (String "097" EmptyString)))) /\
  join_topics (CList ["ai"; "cloud"]) = "ai, cloud" /\
  join_topics (CList []) = "".
Proof. repeat split; vm_compute; reflexivity. Qed.
